(** * Paper digest pipeline: a shallow embedding of [app.py] and
      [paper_digest_assistant.py]

    Python strings are sequences of Unicode code points; they are modelled
    as lists of code points ([list N]).  Dictionaries are finite maps
    ([gmap]) and exceptions are values of an error type. *)

From Stdlib Require Import ZArith Ascii String DecimalString.
From stdpp Require Import base list gmap.

Local Open Scope Z_scope.

(** ** Python string primitives *)
Module Py.

Abbreviation char := N (only parsing).
Abbreviation str := (list N) (only parsing).

(** A literal of the source, as a list of code points. *)
Definition lit (s : string) : str :=
  (λ a, N_of_ascii a) <$> list_ascii_of_string s.

(** [len(s)] *)
Definition len (s : str) : Z := Z.of_nat (length s).

(** The code points for which [str.isspace] holds; these are the
    separators of [str.split()] and the characters removed by
    [str.strip()]. *)
Definition isspace (c : char) : bool :=
  ((9 <=? c) && (c <=? 13) || (28 <=? c) && (c <=? 32)
   || (c =? 133) || (c =? 160) || (c =? 5760)
   || (8192 <=? c) && (c <=? 8202)
   || (c =? 8232) || (c =? 8233) || (c =? 8239) || (c =? 8287)
   || (c =? 12288))%N.

(** [s.split()]: scan left to right, [cur] is the word being read. *)
Fixpoint split_from (cur s : str) : list str :=
  match s with
  | [] => match cur with [] => [] | _ => [cur] end
  | c :: s' =>
      if isspace c
      then match cur with
           | [] => split_from [] s'
           | _ => cur :: split_from [] s'
           end
      else split_from (cur ++ [c]) s'
  end.

Definition split (s : str) : list str := split_from [] s.

(** [sep.join(parts)] for a list of strings. *)
Fixpoint join (sep : str) (parts : list str) : str :=
  match parts with
  | [] => []
  | [p] => p
  | p :: ps => p ++ sep ++ join sep ps
  end.

Fixpoint lstrip (s : str) : str :=
  match s with
  | [] => []
  | c :: s' => if isspace c then lstrip s' else s
  end.

Definition rstrip (s : str) : str := reverse (lstrip (reverse s)).

(** [s.strip()] *)
Definition strip (s : str) : str := rstrip (lstrip s).

(** [s[:n]], with Python's reading of a negative bound. *)
Definition slice_to (s : str) (n : Z) : str :=
  if n <? 0 then take (Z.to_nat (len s + n)) s else take (Z.to_nat n) s.

(** [s[n:]] *)
Definition slice_from (s : str) (n : Z) : str :=
  if n <? 0 then drop (Z.to_nat (len s + n)) s else drop (Z.to_nat n) s.

(** [s.startswith(p)] *)
Fixpoint startswith (s p : str) {struct p} : bool :=
  match p, s with
  | [], _ => true
  | _ :: _, [] => false
  | a :: p', b :: s' => (a =? b)%N && startswith s' p'
  end.

(** [s.endswith(p)] *)
Definition endswith (s p : str) : bool := startswith (reverse s) (reverse p).

(** [p in s] for strings: substring test. *)
Fixpoint contains (p s : str) : bool :=
  startswith s p || match s with [] => false | _ :: s' => contains p s' end.

(** [s.lower()] on the ASCII letters; other code points are kept (the
    strings lowered by the program and compared against are ASCII). *)
Definition lower_char (c : char) : char :=
  if ((65 <=? c) && (c <=? 90))%N then (c + 32)%N else c.

Definition lower (s : str) : str := lower_char <$> s.

(** [str(i)] for a list index. *)
Definition str_of_nat (i : nat) : str :=
  lit (NilZero.string_of_uint (Nat.to_uint i)).

(** Characters that cannot be written inside a literal here. *)
Definition nl : str := [10%N].
Definition dquote : str := [34%N].
Definition cross_mark : str := [10060%N].
Definition check_mark : str := [9989%N].

(** [q s] is [s] between double quotes. *)
Definition q (s : string) : str := dquote ++ lit s ++ dquote.

(** Exceptions: the class that is raised and [str(e)]. *)
Inductive exn_class :=
  | Exception | ValueError | TypeError | AttributeError | KeyError
  | RequestException | JSONDecodeError | OtherError.

Global Instance exn_class_eq_dec : EqDecision exn_class.
Proof. solve_decision. Defined.

Record exn := Raise { exn_cls : exn_class; exn_msg : str }.

(** Outcome of a call that may raise. *)
Inductive result (A : Type) :=
  | Ok (a : A)
  | Err (e : exn).
Arguments Ok {A} a.
Arguments Err {A} e.

(** Values produced by [json.loads]. *)
#[local] Unset Elimination Schemes.
Inductive json :=
  | JNull
  | JBool (b : bool)
  | JInt (z : Z)
  | JFloat (repr : str)
  | JStr (s : str)
  | JList (l : list json)
  | JDict (d : gmap str json).
#[local] Set Elimination Schemes.

(** [type(v).__name__] *)
Definition type_name (v : json) : str :=
  match v with
  | JNull => lit "NoneType"
  | JBool _ => lit "bool"
  | JInt _ => lit "int"
  | JFloat _ => lit "float"
  | JStr _ => lit "str"
  | JList _ => lit "list"
  | JDict _ => lit "dict"
  end.

(** The items of a list handed to [str.join]: each must be a [str];
    the first that is not raises [TypeError]. *)
Fixpoint str_items (i : nat) (items : list json) : result (list str) :=
  match items with
  | [] => Ok []
  | JStr s :: rest =>
      match str_items (S i) rest with
      | Ok ss => Ok (s :: ss)
      | Err e => Err e
      end
  | v :: _ =>
      Err (Raise TypeError
             (lit "sequence item " ++ str_of_nat i
              ++ lit ": expected str instance, " ++ type_name v
              ++ lit " found"))
  end.

(** [sep.join(items)] on a list of arbitrary values. *)
Definition join_values (sep : str) (items : list json) : result str :=
  match str_items 0 items with
  | Ok ss => Ok (join sep ss)
  | Err e => Err e
  end.

(** *** The outside world *)

Record response := {
  resp_http_error : option str;     (* what [raise_for_status()] raises *)
  resp_content_type : option str;   (* [headers.get('Content-Type')] *)
  resp_content : list N;            (* [response.content] *)
  resp_text : str                   (* [response.text] *)
}.

(** Library calls whose results the program only consumes.  A PDF is
    given by the outcome of [extract_text()] on each of its pages. *)
Record world := {
  requests_get : str → result response;
  PdfReader : list N → result (list (result str));
  soup_paragraphs : list str → str → result (list str);
  soup_get_text : list str → str → result str;
  chat_completions_create : str → str → str → result (option str);
  json_loads : str → result json;
  supabase_insert : str → gmap str json → result (list (gmap str json));
  docx_save : json → str → str → result str
}.

Abbreviation loc := positive (only parsing).

(** What a run does that can be observed from outside. *)
Inductive event :=
  | EvGet (url : str)
  | EvExtractText (page_index : nat)
  | EvChat (api_key system_prompt user_prompt : str)
  | EvInsert (table : str) (fields : gmap str json)
  | EvSaveToWord (summary : json)
  | EvStError (msg : str)
  | EvStSuccess (msg : str).

(** Program state: the calls made so far, and the dictionaries that are
    passed by reference. *)
Record state := State {
  trace : list event;
  heap : gmap loc (gmap str json)
}.

(** Computations that log calls, update dictionaries and may raise. *)
Definition M (A : Type) : Type := state → result A * state.

Definition ret {A} (a : A) : M A := λ st, (Ok a, st).
Definition raise {A} (e : exn) : M A := λ st, (Err e, st).
Definition bind {A B} (m : M A) (k : A → M B) : M B :=
  λ st, match m st with
        | (Ok a, st') => k a st'
        | (Err e, st') => (Err e, st')
        end.
(** [try: m  except Exception as e: h e] *)
Definition try_except {A} (m : M A) (h : exn → M A) : M A :=
  λ st, match m st with
        | (Ok a, st') => (Ok a, st')
        | (Err e, st') => h e st'
        end.
Definition lift {A} (r : result A) : M A := λ st, (r, st).
Definition emit (ev : event) : M unit :=
  λ st, (Ok (), State (trace st ++ [ev]) (heap st)).
(** A logged call to the outside. *)
Definition call {A} (ev : event) (r : result A) : M A :=
  bind (emit ev) (λ _, lift r).
Definition alloc (d : gmap str json) : M loc :=
  λ st, let l := fresh (dom (heap st)) in
        (Ok l, State (trace st) (<[l := d]> (heap st))).
Definition deref (l : loc) : M (gmap str json) :=
  λ st, match heap st !! l with
        | Some d => (Ok d, st)
        | None => (Err (Raise OtherError (lit "dangling reference")), st)
        end.
Definition store (l : loc) (d : gmap str json) : M unit :=
  λ st, (Ok (), State (trace st) (<[l := d]> (heap st))).

Notation "x <~ m ;; k" := (bind m (λ x, k))
  (at level 100, m at next level, right associativity).

(** How a button handler leaves the script: the script goes on with the
    rest of [main], or [st.rerun()] has stopped it.  [st.rerun()] stops
    the script by raising an exception that is not an [Exception]: no
    [except Exception] catches it and nothing that follows it runs. *)
Inductive script_end := Continues | Reruns.

(** [st.rerun()], as the last statement of a block. *)
Definition st_rerun : M script_end := ret Reruns.

(** [a or b] on optional strings: the first one that is non-empty. *)
Definition str_or (a b : option str) : option str :=
  match a with
  | Some (_ :: _) => a
  | _ => b
  end.

(** [for i in range(n): text_parts.append(pages[i].extract_text())],
    started at index [i]. *)
Fixpoint read_pages (pages : list (result str)) (i n : nat)
    (text_parts : list str) : M (list str) :=
  match n with
  | O => ret text_parts
  | S n' =>
      match pages !! i with
      | Some page =>
          text <~ call (EvExtractText i) page ;;
          read_pages pages (S i) n' (text_parts ++ [text])
      | None => raise (Raise OtherError (lit "list index out of range"))
      end
  end.

End Py.

Import Py.

(** ** Blocks that the two programs share verbatim *)
Module Common.

(** "Remove markdown code blocks if present", applied to the stripped
    content of the reply. *)
Definition remove_code_blocks (content : str) : str :=
  let content :=
    if startswith content (lit "```json") then slice_from content 7
    else content in
  let content :=
    if startswith content (lit "```") then slice_from content 3
    else content in
  let content :=
    if endswith content (lit "```") then slice_to content (-3)
    else content in
  strip content.

(** [response.choices[0].message.content.strip()] followed by the block
    above: the text handed to [json.loads]. *)
Definition postprocess (content : str) : str :=
  remove_code_blocks (strip content).

(** [key not in summary] *)
Definition key_missing (key : str) (summary : json) : result bool :=
  match summary with
  | JDict d => Ok (bool_decide (d !! key = None))
  | JList l =>
      Ok (negb (existsb
                  (λ v, match v with
                        | JStr s => bool_decide (s = key)
                        | _ => false
                        end) l))
  | JStr s => Ok (negb (contains key s))
  | v => Err (Raise TypeError
                (lit "argument of type '" ++ type_name v
                 ++ lit "' is not iterable"))
  end.

Definition missing_key_msg (key : str) : str :=
  lit "Missing required key '" ++ key ++ lit "' in OpenAI response".

(** [for key in required_keys: if key not in summary: raise ...] *)
Fixpoint check_required_keys (required_keys : list str) (summary : json)
    : result unit :=
  match required_keys with
  | [] => Ok ()
  | key :: rest =>
      match key_missing key summary with
      | Err e => Err e
      | Ok true => Err (Raise Exception (missing_key_msg key))
      | Ok false => check_required_keys rest summary
      end
  end.

(** [summary[key]] *)
Definition getitem (summary : json) (key : str) : result json :=
  match summary with
  | JDict d =>
      match d !! key with
      | Some v => Ok v
      | None => Err (Raise KeyError (lit "'" ++ key ++ lit "'"))
      end
  | JList _ =>
      Err (Raise TypeError
             (lit "list indices must be integers or slices, not str"))
  | JStr _ =>
      Err (Raise TypeError (lit "string indices must be integers, not 'str'"))
  | v => Err (Raise TypeError
                (lit "'" ++ type_name v ++ lit "' object is not subscriptable"))
  end.

(** [summary[key] = v] *)
Definition setitem (summary : json) (key : str) (v : json) : result json :=
  match summary with
  | JDict d => Ok (JDict (<[key := v]> d))
  | other =>
      Err (Raise TypeError
             (lit "'" ++ type_name other
              ++ lit "' object does not support item assignment"))
  end.

(** "Ensure [key] is a list" *)
Definition ensure_list (key : str) (summary : json) : result json :=
  match getitem summary key with
  | Err e => Err e
  | Ok (JList _) => Ok summary
  | Ok (JStr s) => setitem summary key (JList [JStr s])
  | Ok _ => setitem summary key (JList [])
  end.

(** [json.loads] inside its own [try]: only a decoding error is
    rewritten. *)
Definition parse_json (w : world) (content : str) : result json :=
  match json_loads w content with
  | Ok v => Ok v
  | Err e =>
      if bool_decide (exn_cls e = JSONDecodeError)
      then Err (Raise Exception
                  (lit "Failed to parse JSON from OpenAI response: "
                   ++ exn_msg e ++ lit ". Response was: "
                   ++ slice_to content 200))
      else Err e
  end.

(** From the reply's content to the returned summary. *)
Definition read_summary (w : world) (required_keys : list str)
    (list_key : str) (content : option str) : result json :=
  match content with
  | None =>
      Err (Raise AttributeError
             (lit "'NoneType' object has no attribute 'strip'"))
  | Some content =>
      let content := postprocess content in
      match parse_json w content with
      | Err e => Err e
      | Ok summary =>
          match check_required_keys required_keys summary with
          | Err e => Err e
          | Ok _ => ensure_list list_key summary
          end
      end
  end.

(** One line ["key": "value"] of the shape shown in a prompt. *)
Definition shape_line (k v : string) : str :=
  lit "    " ++ q k ++ lit ": " ++ q v.

End Common.

Import Common.

(** ** [app.py] *)
Module App.

(** The test that selects the PDF branch of [fetch_content_from_url];
    [content_type] is the lower-cased header, [''] when absent. *)
Definition is_pdf (url content_type : str) : bool :=
  endswith url (lit ".pdf") || contains (lit "application/pdf") content_type.

Definition content_type_of (r : response) : str :=
  lower (default [] (resp_content_type r)).

Definition raise_for_status (r : response) : M unit :=
  match resp_http_error r with
  | Some msg => raise (Raise RequestException msg)
  | None => ret ()
  end.

(** The PDF branch: text of the first pages. *)
Definition pdf_full_text (w : world) (r : response) : M str :=
  pages <~ lift (PdfReader w (resp_content r)) ;;
  let max_pages := Z.min 5 (Z.of_nat (length pages)) in
  text_parts <~ read_pages pages 0 (Z.to_nat max_pages) [] ;;
  ret (join (nl ++ nl) text_parts).

(** The HTML branch. *)
Definition html_full_text (w : world) (r : response) : M str :=
  let removed := [lit "script"; lit "style"] in
  paragraphs <~ lift (soup_paragraphs w removed (resp_text r)) ;;
  let text_parts := filter (λ t, strip t ≠ []) paragraphs in
  text_parts <~ match text_parts with
                | [] => t <~ lift (soup_get_text w removed (resp_text r)) ;;
                        ret [t]
                | _ => ret text_parts
                end ;;
  ret (join (nl ++ nl) text_parts).

(** [fetch_content_from_url] up to "Clean the text". *)
Definition extract_full_text (w : world) (url : str) : M str :=
  r <~ call (EvGet url) (requests_get w url) ;;
  _ <~ raise_for_status r ;;
  if is_pdf url (content_type_of r)
  then pdf_full_text w r
  else html_full_text w r.

Definition too_short_msg : str :=
  lit "Could not extract sufficient text from the URL. The content may be too short or inaccessible.".

(** "Clean the text" to the end of the [try] body. *)
Definition normalize (full_text : str) : result str :=
  let full_text := join (lit " ") (split full_text) in
  let full_text := strip full_text in
  let full_text :=
    if len full_text >? 10000
    then slice_to full_text 10000 ++ lit "... [truncated]"
    else full_text in
  if bool_decide (full_text = []) || (len (strip full_text) <? 100)
  then Err (Raise ValueError too_short_msg)
  else Ok full_text.

Definition fetch_handler (e : exn) : exn :=
  if bool_decide (exn_cls e = RequestException)
  then Raise Exception (lit "Failed to fetch content from URL: " ++ exn_msg e)
  else Raise Exception (lit "Error processing content: " ++ exn_msg e).

(** [fetch_content_from_url(url)] *)
Definition fetch_content_from_url (w : world) (url : str) : M str :=
  try_except
    (full_text <~ extract_full_text w url ;; lift (normalize full_text))
    (λ e, raise (fetch_handler e)).

Definition system_message : str :=
  lit "You are an assistant that summarizes academic papers into structured JSON. Always respond with ONLY a valid JSON object, no additional text.".

Definition user_message (text : str) : str :=
  join nl
    [ lit "Please summarize the following research paper text and return ONLY a JSON object with the following structure:";
      lit "{";
      shape_line "title" "The title of the paper" ++ lit ",";
      shape_line "abstract_summary" "A 2-4 sentence summary of the abstract"
        ++ lit ",";
      lit "    " ++ q "key_points" ++ lit ": [" ++ q "Point 1" ++ lit ", "
        ++ q "Point 2" ++ lit ", " ++ q "Point 3" ++ lit ", " ++ q "Point 4"
        ++ lit ", " ++ q "Point 5" ++ lit "],";
      shape_line "methodology"
        "A 1-2 sentence description of the methodology used";
      lit "}";
      [];
      lit "Paper text:";
      text;
      [];
      lit "Return ONLY the JSON object, no markdown formatting, no code blocks, just the raw JSON." ].

Definition required_keys : list str :=
  [lit "title"; lit "abstract_summary"; lit "key_points"; lit "methodology"].

Definition summarize_handler (e : exn) : exn :=
  let s := lower (exn_msg e) in
  if contains (lit "api_key") s || contains (lit "authentication") s
  then Raise Exception (lit "OpenAI API authentication failed: " ++ exn_msg e)
  else Raise Exception (lit "Error summarizing paper with OpenAI: " ++ exn_msg e).

(** [summarize_paper_with_openai(text, api_key)] *)
Definition summarize_paper_with_openai (w : world) (text api_key : str)
    : M json :=
  try_except
    (content <~ call (EvChat api_key system_message (user_message text))
                  (chat_completions_create w api_key system_message
                     (user_message text)) ;;
     lift (read_summary w required_keys (lit "key_points") content))
    (λ e, raise (summarize_handler e)).

(** ["\n- ".join([''] + items)] *)
Definition bullet_join (items : list json) : result str :=
  join_values (nl ++ lit "- ") (JStr [] :: items).

Definition insert_handler (e : exn) : exn :=
  Raise Exception (lit "Error inserting paper record into Supabase: " ++ exn_msg e).

(** [insert_paper_record(supabase, data)]; [data] is a reference to the
    caller's dictionary. *)
Definition insert_paper_record (w : world) (data : loc) : M (gmap str json) :=
  try_except
    (d <~ deref data ;;
     _ <~ match d !! lit "key_points" with
          | Some (JList items) =>
              s <~ lift (bullet_join items) ;;
              store data (<[lit "key_points" := JStr s]> d)
          | _ => ret ()
          end ;;
     d <~ deref data ;;
     rows <~ call (EvInsert (lit "papers") d)
               (supabase_insert w (lit "papers") d) ;;
     match rows with
     | [] => raise (Raise Exception
                      (lit "Failed to insert paper record: No data returned from Supabase"))
     | row :: _ => ret row
     end)
    (λ e, raise (insert_handler e)).

(** The [key_points] entry of the record built in [main]. *)
Definition key_points_text (summary : json) : result str :=
  match getitem summary (lit "key_points") with
  | Err e => Err e
  | Ok (JStr s) => Ok s
  | Ok (JList items) => bullet_join items
  | Ok v =>
      Err (Raise TypeError
             (lit "can only concatenate list (not " ++ dquote ++ type_name v
              ++ dquote ++ lit ") to list"))
  end.

(** The record literal passed to [insert_paper_record] in [main]. *)
Definition paper_record (summary : json) (paper_url : str)
    : result (gmap str json) :=
  match getitem summary (lit "title") with
  | Err e => Err e
  | Ok title =>
      match getitem summary (lit "abstract_summary") with
      | Err e => Err e
      | Ok abstract_summary =>
          match key_points_text summary with
          | Err e => Err e
          | Ok key_points =>
              match getitem summary (lit "methodology") with
              | Err e => Err e
              | Ok methodology =>
                  Ok (<[lit "title" := title]>
                      (<[lit "url" := JStr paper_url]>
                       (<[lit "abstract_summary" := abstract_summary]>
                        (<[lit "key_points" := JStr key_points]>
                         (<[lit "methodology" := methodology]> ∅)))))
              end
          end
      end
  end.

(** The "Summarize & Save" button of [main]: [session_key] is
    [st.session_state.get("openai_api_key")], [env_key] is
    [os.getenv("OPENAI_API_KEY")]. *)
Definition summarize_and_save (w : world) (session_key env_key : option str)
    (paper_url : str) : M script_end :=
  match str_or session_key env_key with
  | None | Some [] =>
      _ <~ emit (EvStError (cross_mark ++ lit " No OpenAI API key provided. Please enter it at the top of the page.")) ;;
      ret Continues
  | Some api_key =>
      match paper_url with
      | [] =>
          _ <~ emit (EvStError (cross_mark ++ lit " Please enter a paper URL.")) ;;
          ret Continues
      | _ =>
          try_except
            (text <~ fetch_content_from_url w paper_url ;;
             summary <~ summarize_paper_with_openai w text api_key ;;
             record <~ lift (paper_record summary paper_url) ;;
             data <~ alloc record ;;
             _ <~ insert_paper_record w data ;;
             _ <~ emit (EvStSuccess (check_mark ++ lit " Paper summarized and saved successfully!")) ;;
             st_rerun)
            (λ e, _ <~ emit (EvStError (cross_mark ++ lit " An error occurred: " ++ exn_msg e)) ;;
                  ret Continues)
      end
  end.

End App.

(** ** [paper_digest_assistant.py] *)
Module Digest.

Definition raise_for_status (r : response) : M unit :=
  match resp_http_error r with
  | Some msg => raise (Raise RequestException msg)
  | None => ret ()
  end.

Definition too_short_msg : str :=
  lit "Extracted text is too short or empty. The content may be inaccessible.".

(** [clean_text(text, max_length=10000)] *)
Definition clean_text (text : str) (max_length : Z) : result str :=
  let text := join (lit " ") (split text) in
  let text := strip text in
  let text :=
    if len text >? max_length
    then slice_to text max_length ++ lit "... [truncated]"
    else text in
  if bool_decide (text = []) || (len (strip text) <? 100)
  then Err (Raise ValueError too_short_msg)
  else Ok text.

(** The body of [fetch_pdf_text] up to the call of [clean_text]. *)
Definition pdf_full_text (w : world) (url : str) (max_pages : Z) : M str :=
  r <~ call (EvGet url) (requests_get w url) ;;
  _ <~ raise_for_status r ;;
  pages <~ lift (PdfReader w (resp_content r)) ;;
  let pages_to_read := Z.min max_pages (Z.of_nat (length pages)) in
  text_parts <~ read_pages pages 0 (Z.to_nat pages_to_read) [] ;;
  ret (join (nl ++ nl) text_parts).

(** [fetch_pdf_text(url, max_pages=5)] *)
Definition fetch_pdf_text (w : world) (url : str) (max_pages : Z) : M str :=
  try_except
    (full_text <~ pdf_full_text w url max_pages ;;
     lift (clean_text full_text 10000))
    (λ e, raise (Raise Exception
                   (lit "Failed to fetch PDF from URL: " ++ exn_msg e))).

(** The body of [fetch_html_text] up to the call of [clean_text]. *)
Definition html_full_text (w : world) (url : str) : M str :=
  r <~ call (EvGet url) (requests_get w url) ;;
  _ <~ raise_for_status r ;;
  let removed :=
    [lit "script"; lit "style"; lit "nav"; lit "footer"; lit "header"] in
  paragraphs <~ lift (soup_paragraphs w removed (resp_text r)) ;;
  let text_parts := filter (λ t, strip t ≠ []) paragraphs in
  text_parts <~ match text_parts with
                | [] => t <~ lift (soup_get_text w removed (resp_text r)) ;;
                        ret [t]
                | _ => ret text_parts
                end ;;
  ret (join (nl ++ nl) text_parts).

(** [fetch_html_text(url)] *)
Definition fetch_html_text (w : world) (url : str) : M str :=
  try_except
    (full_text <~ html_full_text w url ;;
     lift (clean_text full_text 10000))
    (λ e, raise (Raise Exception
                   (lit "Failed to fetch HTML from URL: " ++ exn_msg e))).

Definition system_prompt : str :=
  lit "You are an assistant that summarizes academic papers into structured JSON. Always respond with ONLY a valid JSON object, no additional text or markdown formatting.".

Definition user_prompt (text : str) : str :=
  join nl
    [ lit "Given the following academic text, extract the following fields and respond ONLY in valid JSON:";
      [];
      lit "{";
      shape_line "title" "The title of the paper" ++ lit ",";
      shape_line "field_or_topic" "The academic field or topic area"
        ++ lit ",";
      shape_line "research_question"
        "The main research question(s) addressed" ++ lit ",";
      shape_line "methodology" "The research methodology used" ++ lit ",";
      lit "    " ++ q "key_findings" ++ lit ": [" ++ q "Finding 1" ++ lit ", "
        ++ q "Finding 2" ++ lit ", " ++ q "Finding 3" ++ lit "],";
      shape_line "limitations" "The limitations of the study" ++ lit ",";
      shape_line "personal_takeaway"
        "Why this paper matters for someone interested in marketing, data, and international/cross-border e-commerce";
      lit "}";
      [];
      lit "Text:";
      text;
      [];
      lit "Return ONLY the JSON object, no markdown code blocks, no explanations, just the raw JSON." ].

Definition required_keys : list str :=
  [lit "title"; lit "field_or_topic"; lit "research_question";
   lit "methodology"; lit "key_findings"; lit "limitations";
   lit "personal_takeaway"].

Definition summarize_handler (e : exn) : exn :=
  let s := lower (exn_msg e) in
  if contains (lit "api_key") s || contains (lit "authentication") s
     || contains (lit "invalid") s
  then Raise Exception (lit "OpenAI API authentication failed: " ++ exn_msg e)
  else Raise Exception (lit "Error summarizing paper with OpenAI: " ++ exn_msg e).

(** [summarize_paper(text, api_key)] *)
Definition summarize_paper (w : world) (text api_key : str) : M json :=
  try_except
    (content <~ call (EvChat api_key system_prompt (user_prompt text))
                  (chat_completions_create w api_key system_prompt
                     (user_prompt text)) ;;
     lift (read_summary w required_keys (lit "key_findings") content))
    (λ e, raise (summarize_handler e)).

(** [save_to_word]: the document itself is rendered outside. *)
Definition save_to_word (w : world) (summary : json)
    (source_type source_value : str) : M str :=
  try_except
    (call (EvSaveToWord summary) (docx_save w summary source_type source_value))
    (λ e, raise (Raise Exception
                   (lit "Failed to save Word document: " ++ exn_msg e))).

Inductive input_mode := URL | RawText.

Definition mode_lower (mode : input_mode) : str :=
  match mode with URL => lit "url" | RawText => lit "raw text" end.

(** The entries of [st.session_state] that [main] uses. *)
Record session_state := Session {
  openai_api_key : option str;
  paper_text : option str;
  source_type : option str;
  source_value : option str
}.

(** The test of [main] that selects [fetch_pdf_text]. *)
Definition is_pdf_url (paper_url : str) : bool :=
  endswith (lower paper_url) (lit ".pdf") || contains (lit "pdf") (lower paper_url).

(** The "Fetch Content" button of [main]; returns the session state. *)
Definition fetch_content (w : world) (paper_url : str)
    (session : session_state) : M session_state :=
  match paper_url with
  | [] => ret session
  | _ =>
      try_except
        (text <~ (if is_pdf_url paper_url
                  then
                    t <~ fetch_pdf_text w paper_url 5 ;;
                    _ <~ emit (EvStSuccess
                                 (check_mark ++ lit " Fetched PDF content ("
                                  ++ str_of_nat (length t)
                                  ++ lit " characters)")) ;;
                    ret t
                  else
                    t <~ fetch_html_text w paper_url ;;
                    _ <~ emit (EvStSuccess
                                 (check_mark ++ lit " Fetched HTML content ("
                                  ++ str_of_nat (length t)
                                  ++ lit " characters)")) ;;
                    ret t) ;;
         ret (Session (openai_api_key session) (Some text)
                (Some (lit "url")) (Some paper_url)))
        (λ e, _ <~ emit (EvStError
                           (cross_mark ++ lit " Error fetching content: "
                            ++ exn_msg e)) ;;
              ret session)
  end.

(** Raw Text mode stores a non-empty pasted text in the session. *)
Definition store_raw_text (raw_text : str) (session : session_state)
    : session_state :=
  match raw_text with
  | [] => session
  | _ => Session (openai_api_key session) (Some raw_text)
           (Some (lit "raw_text")) (Some (lit "raw_text"))
  end.

(** The text that "Generate Digest" summarizes, or the message it stops
    with. *)
Definition text_to_summarize (mode : input_mode) (raw_text : str)
    (session : session_state) : str + str :=
  match mode with
  | URL =>
      match paper_text session with
      | None | Some [] =>
          inr (cross_mark ++ lit " Please fetch content from URL first by clicking 'Fetch Content'.")
      | Some text => inl text
      end
  | RawText =>
      if bool_decide (raw_text = []) || (len (strip raw_text) <? 100)
      then inr (cross_mark ++ lit " Please paste paper text (at least 100 characters).")
      else inl raw_text
  end.

(** The "Generate Digest" button of [main], up to the saved document.
    [paper_url] and [raw_text] are the values of the input widgets. *)
Definition generate_digest (w : world) (mode : input_mode)
    (paper_url raw_text : str) (session : session_state)
    (env_key : option str) : M unit :=
  let session :=
    match mode with
    | URL => session
    | RawText => store_raw_text raw_text session
    end in
  let source_value_default :=
    match mode with
    | URL => match paper_url with [] => lit "unknown" | _ => paper_url end
    | RawText => lit "raw_text"
    end in
  match str_or (openai_api_key session) env_key with
  | None | Some [] =>
      emit (EvStError (cross_mark ++ lit " No OpenAI API key provided. Please enter your key at the top."))
  | Some api_key =>
      match text_to_summarize mode raw_text session with
      | inr msg => emit (EvStError msg)
      | inl text =>
          try_except
            (summary <~ summarize_paper w text api_key ;;
             saved_filename <~
               save_to_word w summary
                 (default (mode_lower mode) (source_type session))
                 (default source_value_default (source_value session)) ;;
             emit (EvStSuccess (check_mark ++ lit " Digest generated and saved successfully!")))
            (λ e, emit (EvStError
                          (cross_mark ++ lit " An error occurred: "
                           ++ exn_msg e)))
      end
  end.

End Digest.


(** ** Helpers of [main] in [app.py] *)
Module AppRest.

(** [truncate(text, length=200)], the display helper nested in [main],
    on a text column. *)
Definition truncate (text : str) (length : Z) : str :=
  match text with
  | [] => []
  | _ =>
      if len text <=? length then text
      else slice_to text length ++ lit "..."
  end.

End AppRest.

(** ** The file name chosen by [save_to_word] *)
Module DigestRest.

(** [c.isalnum() or c in (' ', '-', '_')]; [isalnum] is [str.isalnum]
    on one character. *)
Definition kept_in_title (isalnum : char → bool) (c : char) : bool :=
  isalnum c || (c =? 32)%N || (c =? 45)%N || (c =? 95)%N.

(** [s.replace(' ', '_')] *)
Definition spaces_to_underscores (s : str) : str :=
  (λ c, if (c =? 32)%N then 95%N else c) <$> s.

(** "Clean title for filename" *)
Definition safe_title (isalnum : char → bool) (title : str) : str :=
  let kept := filter (λ c, kept_in_title isalnum c = true) (slice_to title 50) in
  spaces_to_underscores (strip kept).

(** The file name when none is given; [timestamp] is
    [datetime.now().strftime("%Y%m%d_%H%M%S")]. *)
Definition default_filename (isalnum : char → bool) (title timestamp : str)
    : str :=
  lit "paper_digest_" ++ safe_title isalnum title ++ lit "_" ++ timestamp
  ++ lit ".docx".

End DigestRest.
(** ** Notions used to state the properties *)
Module Spec.

(** The whitespace-collapsed, stripped form of a text: what the first
    two statements of the normalization compute. *)
Definition collapse (text : str) : str :=
  strip (join (lit " ") (split text)).

(** The words that [split] returns are not empty and hold no
    whitespace. *)
Definition word (w : str) : Prop :=
  w ≠ [] ∧ Forall (λ c, isspace c = false) w.

(** No two adjacent whitespace characters. *)
Fixpoint no_adjacent_space (s : str) : bool :=
  match s with
  | c :: s' =>
      match s' with
      | d :: _ => negb (isspace c && isspace d)
      | [] => true
      end && no_adjacent_space s'
  | [] => true
  end.

(** No whitespace runs and no leading or trailing whitespace. *)
Definition no_whitespace_runs (s : str) : bool :=
  no_adjacent_space s && bool_decide (strip s = s).

(** Every whitespace character is a space (U+0020) that is followed by
    a character that is not whitespace. *)
Fixpoint single_spaced (s : str) : bool :=
  match s with
  | c :: s' =>
      (if isspace c
       then (c =? 32)%N
            && match s' with d :: _ => negb (isspace d) | [] => false end
       else true) && single_spaced s'
  | [] => true
  end.

(** Words separated by single spaces, nothing before or after. *)
Definition space_separated (s : str) : bool :=
  match s with c :: _ => negb (isspace c) | [] => true end && single_spaced s.




Definition initial : state := State [] ∅.

(** A message shown to the user. *)
Definition is_message (ev : event) : Prop :=
  ∃ msg, ev = EvStError msg ∨ ev = EvStSuccess msg.

(** What the address alone and the declared content type alone say
    about a resource. *)
Definition extension_says_pdf (url : str) : bool :=
  endswith url (lit ".pdf").

Definition content_type_says_pdf (content_type : str) : bool :=
  contains (lit "application/pdf") (lower content_type).

(** The coercion of a list-typed field: a list is kept, a string is
    wrapped, anything else becomes the empty list. *)
Definition coerce_list (v : json) : json :=
  match v with
  | JList l => JList l
  | JStr s => JList [JStr s]
  | _ => JList []
  end.

(** [k] is the first key of [keys], in their order, that [d] lacks. *)
Definition first_missing (keys : list str) (d : gmap str json) (k : str)
    : Prop :=
  ∃ pre post,
    keys = pre ++ k :: post
    ∧ (∀ k', k' ∈ pre → is_Some (d !! k'))
    ∧ d !! k = None.

(** Texts in their order with a blank line, that is two newline
    characters, between one text and the next. *)
Definition blank_line_separated (texts : list str) : str :=
  match texts with
  | [] => []
  | first :: others =>
      first ++ mjoin ((λ t, [10%N; 10%N] ++ t) <$> others)
  end.

(** The flattening of a list field as the specification words it: each
    item prefixed with ["- "], the items joined by newlines. *)
Definition flatten_as_stated (xs : list str) : str :=
  join nl ((λ x, lit "- " ++ x) <$> xs).

(** Each item preceded by a newline and ["- "]. *)
Definition bulleted (xs : list str) : str :=
  mjoin ((λ x, nl ++ lit "- " ++ x) <$> xs).

Definition fence : str := lit "```".
Definition json_fence : str := lit "```json".

(** A string of whitespace only. *)
Definition blank (s : str) : bool := forallb isspace s.

(** What "Fetch Content" makes of the outcome of the fetcher it called:
    a fetched text is announced ([kind] is [PDF] or [HTML]) and stored in
    the session with its origin, a failure is shown and the session is
    kept. *)
Definition fetch_outcome (url kind : str) (session : Digest.session_state)
    (outcome : result str * state) : result Digest.session_state * state :=
  match outcome with
  | (Ok text, st1) =>
      (Ok (Digest.Session (Digest.openai_api_key session) (Some text)
             (Some (lit "url")) (Some url)),
       State (trace st1
              ++ [EvStSuccess (check_mark ++ lit " Fetched " ++ kind
                               ++ lit " content (" ++ str_of_nat (length text)
                               ++ lit " characters)")])
         (heap st1))
  | (Err e, st1) =>
      (Ok session,
       State (trace st1
              ++ [EvStError (cross_mark ++ lit " Error fetching content: "
                             ++ exn_msg e)])
         (heap st1))
  end.

(** "The declared content type is authoritative": whenever a declared
    content type disagrees with the extension, the classification
    follows the content type. *)
Definition content_type_authoritative : Prop :=
  ∀ (url : str) (r : response) (content_type : str),
    resp_content_type r = Some content_type →
    content_type_says_pdf content_type ≠ extension_says_pdf url →
    App.is_pdf url (App.content_type_of r) = content_type_says_pdf content_type.

End Spec.

Import Spec.

(** ** Inputs used in examples *)
Module Examples.

Definition a_char : char := 97%N.

(** [n] times the letter [a]. *)
Definition letters (n : Z) : str := replicate (Z.to_nat n) a_char.

(** A world in which nothing can be reached. *)
Definition offline : world := {|
  requests_get := λ _, Err (Raise RequestException (lit "connection refused"));
  PdfReader := λ _, Err (Raise OtherError (lit "EOF marker not found"));
  soup_paragraphs := λ _ _, Ok [];
  soup_get_text := λ _ markup, Ok markup;
  chat_completions_create := λ _ _ _, Err (Raise OtherError (lit "Connection error."));
  json_loads := λ _, Err (Raise JSONDecodeError (lit "Expecting value: line 1 column 1 (char 0)"));
  supabase_insert := λ _ _, Ok [];
  docx_save := λ _ _ _, Err (Raise OtherError (lit "Permission denied"))
|}.

(** [n] copies of the word [ab], each followed by a space. *)
Definition words (n : Z) : str :=
  mjoin (replicate (Z.to_nat n) (lit "ab ")).

Definition pdf_response : response := {|
  resp_http_error := None;
  resp_content_type := Some (lit "application/pdf");
  resp_content := lit "%PDF-1.7";
  resp_text := []
|}.

Definition eight_pages : list (result str) :=
  [Ok (lit "page 1"); Ok (lit "page 2"); Ok (lit "page 3");
   Ok (lit "page 4"); Ok (lit "page 5"); Ok (lit "page 6");
   Ok (lit "page 7"); Ok (lit "page 8")].

(** A world that serves an eight-page PDF at every address. *)
Definition pdf_world : world := {|
  requests_get := λ _, Ok pdf_response;
  PdfReader := λ _, Ok eight_pages;
  soup_paragraphs := λ _ _, Ok [];
  soup_get_text := λ _ markup, Ok markup;
  chat_completions_create := λ _ _ _, Err (Raise OtherError (lit "Connection error."));
  json_loads := λ _, Err (Raise JSONDecodeError (lit "Expecting value: line 1 column 1 (char 0)"));
  supabase_insert := λ _ _, Ok [];
  docx_save := λ _ _ _, Err (Raise OtherError (lit "Permission denied"))
|}.


(** Sixty letters, a tab, sixty letters. *)
Definition tabbed_text : str := letters 60 ++ [9%N] ++ letters 60.

Definition keyed_session : Digest.session_state :=
  Digest.Session (Some (lit "sk-test")) None None None.

Definition html_response : response := {|
  resp_http_error := None;
  resp_content_type := Some (lit "text/html; charset=utf-8");
  resp_content := [];
  resp_text := lit "<html><body><p>Moved.</p></body></html>"
|}.

(** [{"title": "X", "abstract_summary": "S", "key_points": "only one",
    "methodology": "M"}] *)
Definition summary_text : str :=
  lit "{" ++ q "title" ++ lit ": " ++ q "X" ++ lit ", "
  ++ q "abstract_summary" ++ lit ": " ++ q "S" ++ lit ", "
  ++ q "key_points" ++ lit ": " ++ q "only one" ++ lit ", "
  ++ q "methodology" ++ lit ": " ++ q "M" ++ lit "}".

Definition summary_dict : gmap str json :=
  <[lit "title" := JStr (lit "X")]>
    (<[lit "abstract_summary" := JStr (lit "S")]>
       (<[lit "key_points" := JStr (lit "only one")]>
          (<[lit "methodology" := JStr (lit "M")]> ∅))).

(** [{"title": "X"}] *)
Definition title_only_text : str :=
  lit "{" ++ q "title" ++ lit ": " ++ q "X" ++ lit "}".

Definition title_only_dict : gmap str json :=
  <[lit "title" := JStr (lit "X")]> ∅.

(** The reply wrapped in a tagged code fence. *)
Definition fenced (body : str) : str :=
  lit "```json" ++ nl ++ body ++ nl ++ lit "```".

(** A world whose summarization service answers [reply] and whose parser
    knows the two texts above. *)
Definition replying (reply : str) : world := {|
  requests_get := λ _, Ok html_response;
  PdfReader := λ _, Err (Raise OtherError (lit "EOF marker not found"));
  soup_paragraphs := λ _ _, Ok [];
  soup_get_text := λ _ markup, Ok markup;
  chat_completions_create := λ _ _ _, Ok (Some reply);
  json_loads := λ s,
    if bool_decide (s = summary_text) then Ok (JDict summary_dict)
    else if bool_decide (s = title_only_text) then Ok (JDict title_only_dict)
    else Err (Raise JSONDecodeError (lit "Expecting value: line 1 column 1 (char 0)"));
  supabase_insert := λ _ fields, Ok [fields];
  docx_save := λ _ _ _, Ok (lit "paper_digest_X.docx")
|}.

(** A summary as the summarizer returns it, [key_points] a list. *)
Definition listed_dict : gmap str json :=
  <[lit "key_points" := JList [JStr (lit "first"); JStr (lit "second")]]>
    summary_dict.

(** A state in which reference 1 is the caller's dictionary. *)
Definition callers_state : state := State [] {[ 1%positive := listed_dict ]}.

(** A page with one paragraph of 121 characters. *)
Definition article_world : world := {|
  requests_get := λ _, Ok html_response;
  PdfReader := λ _, Err (Raise OtherError (lit "EOF marker not found"));
  soup_paragraphs := λ _ _, Ok [letters 60 ++ nl ++ letters 60; lit "  "];
  soup_get_text := λ _ markup, Ok markup;
  chat_completions_create := λ _ _ _, Ok (Some (fenced summary_text));
  json_loads := λ s,
    if bool_decide (s = summary_text) then Ok (JDict summary_dict)
    else Err (Raise JSONDecodeError (lit "Expecting value: line 1 column 1 (char 0)"));
  supabase_insert := λ _ fields, Ok [fields];
  docx_save := λ _ _ _, Ok (lit "paper_digest_X.docx")
|}.

(** A PDF whose third page cannot be read. *)
Definition damaged_pages : list (result str) :=
  [Ok (lit "page 1"); Ok (lit "page 2");
   Err (Raise OtherError (lit "Odd-length string"));
   Ok (lit "page 4"); Ok (lit "page 5"); Ok (lit "page 6")].

Definition damaged_pdf_world : world := {|
  requests_get := λ _, Ok pdf_response;
  PdfReader := λ _, Ok damaged_pages;
  soup_paragraphs := λ _ _, Ok [];
  soup_get_text := λ _ markup, Ok markup;
  chat_completions_create := λ _ _ _, Err (Raise OtherError (lit "Connection error."));
  json_loads := λ _, Err (Raise JSONDecodeError (lit "Expecting value: line 1 column 1 (char 0)"));
  supabase_insert := λ _ _, Ok [];
  docx_save := λ _ _ _, Err (Raise OtherError (lit "Permission denied"))
|}.

(** A world whose summarization service answers [reply] and whose
    parser reads it as [v]. *)
Definition parsing_to (reply : str) (v : json) : world := {|
  requests_get := λ _, Ok html_response;
  PdfReader := λ _, Err (Raise OtherError (lit "EOF marker not found"));
  soup_paragraphs := λ _ _, Ok [];
  soup_get_text := λ _ markup, Ok markup;
  chat_completions_create := λ _ _ _, Ok (Some reply);
  json_loads := λ _, Ok v;
  supabase_insert := λ _ fields, Ok [fields];
  docx_save := λ _ _ _, Ok (lit "paper_digest_X.docx")
|}.

(** [["title", "abstract_summary", "key_points", "methodology"]] *)
Definition keys_array_text : str :=
  lit "[" ++ q "title" ++ lit ", " ++ q "abstract_summary" ++ lit ", "
  ++ q "key_points" ++ lit ", " ++ q "methodology" ++ lit "]".

Definition keys_array : json :=
  JList [JStr (lit "title"); JStr (lit "abstract_summary");
         JStr (lit "key_points"); JStr (lit "methodology")].



(** A dictionary whose [key_points] is already a text, and a state in
    which reference 1 is that dictionary. *)
Definition flat_state : state := State [] {[ 1%positive := summary_dict ]}.

(** A dictionary whose second key point is a number. *)
Definition mixed_dict : gmap str json :=
  <[lit "key_points" := JList [JStr (lit "first"); JInt 2]]> summary_dict.

Definition mixed_state : state := State [] {[ 1%positive := mixed_dict ]}.

(** The record that [main] builds from [summary_dict] once its
    [key_points] has been coerced. *)
Definition saved_record : gmap str json :=
  <[lit "title" := JStr (lit "X")]>
    (<[lit "url" := JStr (lit "https://example.org/a")]>
       (<[lit "abstract_summary" := JStr (lit "S")]>
          (<[lit "key_points" := JStr (nl ++ lit "- only one")]>
             (<[lit "methodology" := JStr (lit "M")]> ∅)))).

(** The reply [{"title": "X", ...}] with a number among the key
    points, for a world whose parser returns [mixed_dict]. *)
Definition mixed_world : world := {|
  requests_get := λ _, Ok html_response;
  PdfReader := λ _, Err (Raise OtherError (lit "EOF marker not found"));
  soup_paragraphs := λ _ _, Ok [letters 60 ++ nl ++ letters 60];
  soup_get_text := λ _ markup, Ok markup;
  chat_completions_create := λ _ _ _, Ok (Some summary_text);
  json_loads := λ _, Ok (JDict mixed_dict);
  supabase_insert := λ _ fields, Ok [fields];
  docx_save := λ _ _ _, Ok (lit "paper_digest_X.docx")
|}.

(** A session that holds a two-letter text pasted in Raw Text mode. *)
Definition pasted_session : Digest.session_state :=
  Digest.store_raw_text (lit "hi") keyed_session.

(** [str.isalnum] on ASCII characters. *)
Definition ascii_isalnum (c : char) : bool :=
  ((48 <=? c) && (c <=? 57) || (65 <=? c) && (c <=? 90)
   || (97 <=? c) && (c <=? 122))%N.

End Examples.

(** * Properties *)

(** ** Facts about the string primitives *)
Module PyFacts.

Lemma len_app (a b : str) : len (a ++ b) = len a + len b.
Proof. unfold len. rewrite length_app. lia. Qed.

Lemma len_nonneg (a : str) : 0 <= len a.
Proof. unfold len. lia. Qed.

Lemma length_lstrip_le (s : str) : (length (lstrip s) <= length s)%nat.
Proof.
  induction s as [|c s IH]; simpl; [lia|].
  destruct (isspace c); simpl; lia.
Qed.

Lemma len_strip_le (s : str) : len (strip s) <= len s.
Proof.
  unfold len, strip, rstrip. rewrite length_reverse.
  pose proof (length_lstrip_le (reverse (lstrip s))) as H1.
  rewrite length_reverse in H1.
  pose proof (length_lstrip_le s). lia.
Qed.

Lemma lstrip_cons_nonspace (c : char) (s : str) :
  isspace c = false → lstrip (c :: s) = c :: s.
Proof. intros H. simpl. by rewrite H. Qed.

Lemma lstrip_head (s : str) (c : char) (r : str) :
  lstrip s = c :: r → isspace c = false.
Proof.
  induction s as [|d s IH]; simpl; [done|].
  destruct (isspace d) eqn:E; [done|].
  intros [= -> _]. done.
Qed.

Lemma lstrip_snoc_nonspace (s : str) (c : char) :
  isspace c = false → ∃ s', lstrip (s ++ [c]) = s' ++ [c].
Proof.
  intros Hc. induction s as [|d s [s' IH]]; simpl.
  - rewrite Hc. by exists [].
  - destruct (isspace d); [by exists s'|]. by exists (d :: s).
Qed.

Lemma rstrip_snoc (s : str) (c : char) :
  rstrip (s ++ [c]) = if isspace c then rstrip s else s ++ [c].
Proof.
  unfold rstrip. rewrite reverse_snoc. simpl.
  destruct (isspace c); [done|].
  by rewrite reverse_cons, reverse_involutive.
Qed.

Lemma rstrip_cons_nonspace (c : char) (s : str) :
  isspace c = false → ∃ s', rstrip (c :: s) = c :: s'.
Proof.
  intros Hc. unfold rstrip. rewrite reverse_cons.
  destruct (lstrip_snoc_nonspace (reverse s) c Hc) as [s' ->].
  rewrite reverse_snoc. by exists (reverse s').
Qed.

(** The first character of a stripped string is not whitespace. *)
Lemma strip_head (s : str) (c : char) (r : str) :
  strip s = c :: r → isspace c = false.
Proof.
  unfold strip. destruct (lstrip s) as [|d t] eqn:E.
  - by vm_compute.
  - pose proof (lstrip_head _ _ _ E) as Hd.
    destruct (rstrip_cons_nonspace d t Hd) as [s' ->].
    by intros [= -> _].
Qed.

(** Stripping leaves a string alone when it neither starts nor ends
    with whitespace. *)
Lemma strip_fixed (c d : char) (s : str) :
  isspace c = false → isspace d = false →
  strip (c :: s ++ [d]) = c :: s ++ [d].
Proof.
  intros Hc Hd. unfold strip. rewrite lstrip_cons_nonspace by done.
  change (c :: s ++ [d]) with ((c :: s) ++ [d]).
  by rewrite rstrip_snoc, Hd.
Qed.

Lemma slice_to_nonneg (s : str) (n : Z) :
  0 <= n → slice_to s n = take (Z.to_nat n) s.
Proof. intros H. unfold slice_to. by rewrite (proj2 (Z.ltb_ge n 0)). Qed.

Lemma startswith_app (p s : str) : startswith (p ++ s) p = true.
Proof. induction p as [|a p IH]; simpl; [done|]. by rewrite N.eqb_refl, IH. Qed.

Lemma startswith_spec (s p : str) :
  startswith s p = true ↔ ∃ r, s = p ++ r.
Proof.
  revert s. induction p as [|a p IH]; intros s; simpl.
  - split; [by exists s|done].
  - destruct s as [|b s]; [split; [done|by intros [r ?]]|].
    rewrite andb_true_iff, N.eqb_eq, IH. split.
    + intros [-> [r ->]]. by exists r.
    + intros [r [= -> ->]]. eauto.
Qed.

Lemma endswith_app (s p : str) : endswith (s ++ p) p = true.
Proof. unfold endswith. rewrite reverse_app. apply startswith_app. Qed.

Lemma endswith_spec (s p : str) :
  endswith s p = true ↔ ∃ r, s = r ++ p.
Proof.
  unfold endswith. rewrite startswith_spec. split.
  - intros [r H]. exists (reverse r).
    apply (f_equal reverse) in H.
    by rewrite reverse_involutive, reverse_app, reverse_involutive in H.
  - intros [r ->]. exists (reverse r). by rewrite reverse_app.
Qed.

Lemma join_cons_cons (sep p p' : str) (ps : list str) :
  join sep (p :: p' :: ps) = p ++ sep ++ join sep (p' :: ps).
Proof. done. Qed.

Lemma join_first_rest (sep t : str) (rest : list str) :
  join sep (t :: rest) = t ++ mjoin ((λ x, sep ++ x) <$> rest).
Proof.
  revert t. induction rest as [|u rest IH]; intros t.
  - simpl. by rewrite app_nil_r.
  - rewrite join_cons_cons, IH.
    change (mjoin ((λ x, sep ++ x) <$> u :: rest))
      with ((sep ++ u) ++ mjoin ((λ x, sep ++ x) <$> rest)).
    by rewrite <- !app_assoc.
Qed.

End PyFacts.

(** ** Normalization *)
Module NormFacts.
Import PyFacts.

Lemma marker_last :
  lit "... [truncated]" = lit "... [truncated" ++ [93%N].
Proof. reflexivity. Qed.

Lemma len_marker : len (lit "... [truncated]") = 15.
Proof. reflexivity. Qed.

(** Both programs normalize in the same way, up to the message. *)
Lemma normalize_clean_text (text : str) :
  App.normalize text =
  match Digest.clean_text text 10000 with
  | Ok t => Ok t
  | Err _ => Err (Raise ValueError App.too_short_msg)
  end.
Proof.
  unfold App.normalize, Digest.clean_text.
  by destruct (_ || _).
Qed.


(** A text that is cut keeps its first [max_length] characters and gets
    the marker. *)
Lemma clean_text_long (text : str) (max_length : Z) :
  85 <= max_length → max_length < len (collapse text) →
  Digest.clean_text text max_length =
    Ok (take (Z.to_nat max_length) (collapse text) ++ lit "... [truncated]").
Proof.
  intros Hm Hlong. unfold Digest.clean_text. fold (collapse text).
  destruct (Z.gtb_spec (len (collapse text)) max_length) as [_|?]; [|lia].
  rewrite slice_to_nonneg by lia.
  destruct (collapse text) as [|c r] eqn:E; [unfold len in Hlong; simpl in Hlong; lia|].
  pose proof (strip_head _ _ _ E) as Hc.
  destruct (Z.to_nat max_length) as [|n] eqn:En; [lia|].
  rewrite firstn_cons.
  assert (Hfix : strip ((c :: take n r) ++ lit "... [truncated]")
                 = (c :: take n r) ++ lit "... [truncated]").
  { rewrite marker_last, app_assoc. simpl. by apply strip_fixed. }
  rewrite Hfix.
  assert (Hlen : len ((c :: take n r) ++ lit "... [truncated]") = max_length + 15).
  { rewrite len_app, len_marker. unfold len in *. simpl in *.
    rewrite length_take. lia. }
  rewrite Hlen.
  destruct (Z.ltb_spec (max_length + 15) 100); [lia|].
  done.
Qed.

Lemma split_from_cons (cur s : str) :
  cur ≠ [] → ∃ w ws, split_from cur s = w :: ws.
Proof.
  revert cur. induction s as [|c s IH]; intros cur Hcur; simpl.
  - destruct cur; [done|eauto].
  - destruct (isspace c).
    + destruct cur; [done|eauto].
    + apply IH. by destruct cur.
Qed.

Lemma join_cons (sep w : str) (ws : list str) :
  ws ≠ [] → join sep (w :: ws) = w ++ sep ++ join sep ws.
Proof. by destruct ws. Qed.

(** Splitting a single-spaced text and joining the words with spaces
    gives the text back. *)
Lemma join_split_from (s cur : str) :
  single_spaced s = true →
  (cur = [] → match s with c :: _ => isspace c = false | [] => True end) →
  join (lit " ") (split_from cur s) = cur ++ s.
Proof.
  revert cur. induction s as [|c s IH]; intros cur Hs Hcur.
  - simpl. destruct cur; [done|]. simpl. by rewrite app_nil_r.
  - simpl in Hs. simpl split_from. destruct (isspace c) eqn:Ec.
    + apply andb_true_iff in Hs as [Hc Hs].
      apply andb_true_iff in Hc as [Hc Hd].
      apply N.eqb_eq in Hc as ->.
      destruct cur as [|k cur]; [by specialize (Hcur eq_refl)|].
      destruct s as [|d s]; [done|].
      apply negb_true_iff in Hd.
      assert (Hrest : join (lit " ") (split_from [] (d :: s)) = d :: s).
      { by apply (IH []). }
      destruct (split_from [] (d :: s)) as [|w ws] eqn:E.
      { simpl in E. rewrite Hd in E.
        by destruct (split_from_cons [d] s) as (? & ? & ?); [|congruence]. }
      rewrite join_cons by done. by rewrite Hrest.
    + rewrite IH; [by rewrite <- app_assoc|by destruct (isspace c)|].
      intros Heq. by destruct cur.
Qed.

Lemma single_spaced_last (s : str) (c : char) :
  single_spaced (s ++ [c]) = true → isspace c = false.
Proof.
  induction s as [|d s IH]; simpl.
  - destruct (isspace c); [|done]. by rewrite andb_false_r.
  - intros H. apply andb_true_iff in H as [_ H]. auto.
Qed.

Lemma strip_space_separated (s : str) :
  space_separated s = true → strip s = s.
Proof.
  unfold space_separated. intros H. apply andb_true_iff in H as [Hh Hs].
  destruct s as [|c s]; [done|]. apply negb_true_iff in Hh.
  unfold strip. rewrite lstrip_cons_nonspace by done.
  destruct (decide (s = [])) as [->|Hne].
  - change [c] with ([] ++ [c]). by rewrite rstrip_snoc, Hh.
  - destruct (exists_last Hne) as (t & d & ->).
    change (c :: t ++ [d]) with ((c :: t) ++ [d]) in *.
    by rewrite rstrip_snoc, (single_spaced_last _ _ Hs).
Qed.

Lemma collapse_space_separated (s : str) :
  space_separated s = true → collapse s = s.
Proof.
  intros H. unfold collapse, split.
  pose proof H as H'. unfold space_separated in H'.
  apply andb_true_iff in H' as [Hh Hs].
  rewrite join_split_from; [by apply strip_space_separated|done|].
  intros _. destruct s; [done|]. by apply negb_true_iff.
Qed.

Lemma split_from_words (s cur : str) :
  Forall (λ c, isspace c = false) cur → Forall word (split_from cur s).
Proof.
  revert cur. induction s as [|c s IH]; intros cur Hcur; simpl.
  - destruct cur; [done|]. constructor; [by split|constructor].
  - destruct (isspace c) eqn:Ec.
    + destruct cur; [by apply IH|].
      constructor; [by split|by apply IH].
    + apply IH, Forall_app. split; [done|by repeat constructor].
Qed.

Lemma single_spaced_word_app (w t : str) :
  Forall (λ c, isspace c = false) w →
  single_spaced (w ++ t) = single_spaced t.
Proof.
  induction 1 as [|c w Hc _ IH]; [done|].
  cbn [app single_spaced]. by rewrite Hc, IH.
Qed.

Lemma join_words (ws : list str) :
  Forall word ws → space_separated (join (lit " ") ws) = true.
Proof.
  induction 1 as [|w ws [Hne Hw] Hws IH]; [done|].
  destruct ws as [|w' ws].
  - simpl. unfold space_separated.
    rewrite <- (app_nil_r w), single_spaced_word_app by done.
    destruct Hw; [done|]. simpl. by rewrite H.
  - rewrite join_cons_cons. unfold space_separated in *.
    apply andb_true_iff in IH as [Hh Hs].
    rewrite single_spaced_word_app by done.
    destruct (join (lit " ") (w' :: ws)) as [|d r] eqn:E.
    { exfalso. apply Forall_cons in Hws as [[Hne' _] _].
      destruct w'; [done|]. by destruct ws. }
    apply andb_true_iff. split.
    + destruct Hw; [done|]. simpl. by rewrite H.
    + change (lit " " ++ d :: r) with (32%N :: d :: r).
      cbn [single_spaced] in Hs |- *. change (isspace 32) with true. cbn match.
      by rewrite N.eqb_refl, Hh, Hs.
Qed.

(** The collapsed form of any text is single-spaced, and is what the
    first statement of the normalization already yields. *)
Lemma collapse_is_space_separated (text : str) :
  space_separated (collapse text) = true
  ∧ collapse text = join (lit " ") (split text).
Proof.
  assert (H : space_separated (join (lit " ") (split text)) = true).
  { apply join_words, split_from_words. constructor. }
  unfold collapse. by rewrite (strip_space_separated _ H).
Qed.

Lemma single_spaced_take_app (s m : str) (d : char) (n : nat) :
  single_spaced s = true → isspace d = false →
  single_spaced (d :: m) = true →
  single_spaced (take n s ++ d :: m) = true.
Proof.
  intros Hs Hd Hm. revert n. induction s as [|c s IH]; intros n.
  - by rewrite take_nil.
  - destruct n as [|n]; [done|]. cbn [take app single_spaced].
    cbn [single_spaced] in Hs. apply andb_true_iff in Hs as [Hc Hs].
    rewrite IH by done. rewrite andb_true_r.
    destruct (isspace c); [|done].
    apply andb_true_iff in Hc as [-> Hnext]. cbn [andb].
    destruct s as [|e s]; [done|].
    destruct n; cbn [take app]; [by rewrite Hd|done].
Qed.

(** A single-spaced text of 100 to [max_length] characters passes
    through [clean_text] unchanged. *)
Lemma clean_text_fixed (s : str) (max_length : Z) :
  space_separated s = true → 100 <= len s <= max_length →
  Digest.clean_text s max_length = Ok s.
Proof.
  intros Hs [Hlo Hhi]. unfold Digest.clean_text. fold (collapse s).
  rewrite (collapse_space_separated s Hs).
  destruct (Z.gtb_spec (len s) max_length); [lia|].
  rewrite (strip_space_separated s Hs).
  destruct (Z.ltb_spec (len s) 100); [lia|].
  rewrite orb_false_r.
  destruct s; [by vm_compute in Hlo|done].
Qed.

(** What [clean_text] returns is single-spaced and has at least 100
    characters. *)
Lemma clean_text_output (text out : str) :
  Digest.clean_text text 10000 = Ok out →
  space_separated out = true ∧ 100 <= len out
  ∧ (len out <= 10000
     ∨ out = take (Z.to_nat 10000) out ++ lit "... [truncated]").
Proof.
  destruct (collapse_is_space_separated text) as [Hc _].
  destruct (Z.le_gt_cases (len (collapse text)) 10000) as [Hle|Hgt].
  - unfold Digest.clean_text. fold (collapse text).
    destruct (Z.gtb_spec (len (collapse text)) 10000); [lia|].
    rewrite (strip_space_separated _ Hc).
    destruct (Z.ltb_spec (len (collapse text)) 100).
    + by rewrite orb_true_r.
    + destruct (bool_decide _); [done|]. intros [= <-]. auto.
  - rewrite clean_text_long by lia. intros [= <-].
    assert (Hl : length (take (Z.to_nat 10000) (collapse text)) = Z.to_nat 10000).
    { apply length_take_le. unfold len in Hgt. lia. }
    split; [|split].
    + unfold space_separated in *. apply andb_true_iff in Hc as [Hh Hs].
      apply andb_true_iff. split.
      * destruct (collapse text) as [|c r]; [by vm_compute in Hgt|].
        destruct (Z.to_nat 10000) eqn:E; [lia|done].
      * by apply (single_spaced_take_app _ (lit ".. [truncated]") 46%N).
    + rewrite len_app, len_marker. unfold len. lia.
    + right. by rewrite (take_app_length' _ _ _ (eq_sym Hl)).
Qed.

End NormFacts.

(** ** Reading the pages of a PDF *)
Module ReadFacts.

Ltac run := unfold bind, call, emit, lift, ret, raise, try_except in *; simpl in *.

Lemma state_eta (st : state) : State (trace st) (heap st) = st.
Proof. by destruct st. Qed.

(** When the next [n] pages all yield text, the loop reads exactly
    them, in order. *)
Lemma read_pages_ok (pages : list (result str)) (n : nat) :
  ∀ (i : nat) (texts parts : list str) (st : state),
    take n (drop i pages) = Ok <$> texts → length texts = n →
    read_pages pages i n parts st =
      (Ok (parts ++ texts),
       State (trace st ++ (EvExtractText <$> seq i n)) (heap st)).
Proof.
  induction n as [|n IH]; intros i texts parts st Htake Hlen.
  - destruct texts; [|done]. simpl.
    by rewrite !app_nil_r, state_eta.
  - destruct texts as [|t texts]; [done|].
    destruct (drop i pages) as [|p rest] eqn:Hd; [done|].
    simpl in Htake. injection Htake as -> Htake.
    assert (Hi : pages !! i = Some (Ok t)).
    { rewrite <- (Nat.add_0_r i), <- lookup_drop, Hd. done. }
    assert (Hrest : drop (S i) pages = rest).
    { rewrite <- Nat.add_1_r, <- drop_drop, Hd. done. }
    simpl read_pages. rewrite Hi. run.
    rewrite (IH (S i) texts); [|by rewrite Hrest|by injection Hlen].
    simpl. by rewrite <- !app_assoc.
Qed.

(** Whatever the pages yield, the loop only reads a prefix of the next
    [n] pages and does nothing else. *)
Lemma read_pages_trace (pages : list (result str)) (n : nat) :
  ∀ (i : nat) (parts : list str) (st st' : state) (res : result (list str)),
    read_pages pages i n parts st = (res, st') →
    ∃ m, (m <= n)%nat
         ∧ trace st' = trace st ++ (EvExtractText <$> seq i m)
         ∧ heap st' = heap st.
Proof.
  induction n as [|n IH]; intros i parts st st' res H.
  - run. injection H as _ <-. exists 0%nat. by rewrite app_nil_r.
  - simpl in H. destruct (pages !! i) as [[t|e]|] eqn:Hi; run.
    + apply IH in H as (m & Hm & Ht & Hh). simpl in *.
      exists (S m). split; [lia|]. split; [|done].
      by rewrite Ht, <- app_assoc.
    + injection H as _ <-. exists 1%nat. split; [lia|]. done.
    + injection H as _ <-. exists 0%nat. split; [lia|].
      by rewrite app_nil_r.
Qed.

Lemma app_pdf_trace (w : world) (r : response) (st st' : state)
    (res : result str) :
  App.pdf_full_text w r st = (res, st') →
  ∃ m, (m <= 5)%nat
       ∧ trace st' = trace st ++ (EvExtractText <$> seq 0 m)
       ∧ heap st' = heap st.
Proof.
  unfold App.pdf_full_text. run.
  destruct (PdfReader w (resp_content r)) as [pages|e].
  - destruct (read_pages _ _ _ _ _) as [[parts|e] st1] eqn:E;
      apply read_pages_trace in E as (m & Hm & Ht & Hh);
      intros [= _ <-]; exists m; (split; [lia|done]).
  - intros [= _ <-]. exists 0%nat. split; [lia|]. by rewrite app_nil_r.
Qed.


End ReadFacts.

(** ** Text extractor *)
Module Extractor.
Import ReadFacts.

(** Whatever the pages yield, a page past the first five is never
    asked for its text. *)
Lemma pdf_never_past_five (w : world) (r : response) (st st' : state)
    (res : result str) :
  App.pdf_full_text w r st = (res, st') →
  ∃ m, (m <= 5)%nat ∧ trace st' = trace st ++ (EvExtractText <$> seq 0 m).
Proof. intros H. apply app_pdf_trace in H as (m & ? & ? & _). eauto. Qed.

Lemma join_blank_lines (texts : list str) :
  join (nl ++ nl) texts = blank_line_separated texts.
Proof.
  destruct texts as [|t rest]; [done|]. apply PyFacts.join_first_rest.
Qed.

(** C8: a PDF whose first pages yield text is read on exactly its
    first [min 5 total_pages] pages, in page order, and the text
    extracted is those page texts in that order with a blank line
    between one page and the next; no other page is read.  This holds
    for the PDF branch of [fetch_content_from_url] and for
    [fetch_pdf_text] with its default [max_pages]. *)
Theorem pdf_reads_first_pages (w : world) (url : str) (r : response)
    (pages : list (result str)) (texts : list str) (st : state) :
  requests_get w url = Ok r →
  resp_http_error r = None →
  PdfReader w (resp_content r) = Ok pages →
  take 5 pages = Ok <$> texts →
  let n := (5 `min` length pages)%nat in
  length texts = n
  ∧ App.pdf_full_text w r st =
      (Ok (blank_line_separated texts),
       State (trace st ++ (EvExtractText <$> seq 0 n)) (heap st))
  ∧ Digest.pdf_full_text w url 5 st =
      (Ok (blank_line_separated texts),
       State (trace st ++ EvGet url :: (EvExtractText <$> seq 0 n)) (heap st)).
Proof.
  intros Hget Hstatus Hpdf Htexts n.
  assert (Hlen : length texts = n).
  { apply (f_equal length) in Htexts.
    by rewrite length_take, length_fmap in Htexts. }
  assert (Hn : Z.to_nat (Z.min 5 (Z.of_nat (length pages))) = n) by lia.
  assert (Htake : take n (drop 0 pages) = Ok <$> texts).
  { rewrite drop_0, <- Htexts. unfold n.
    destruct (Nat.min_spec 5 (length pages)) as [[? ->]|[? ->]]; [done|].
    by rewrite !take_ge by lia. }
  clearbody n. rewrite <- join_blank_lines. split; [done|]. split.
  - unfold App.pdf_full_text. run. rewrite Hpdf, Hn.
    by rewrite (read_pages_ok pages n 0 texts []).
  - unfold Digest.pdf_full_text, Digest.raise_for_status. run.
    rewrite Hget, Hstatus. simpl. rewrite Hpdf, Hn.
    rewrite (read_pages_ok pages n 0 texts []); [|done..].
    simpl. by rewrite <- app_assoc.
Qed.

(** Scenario 1: eight pages, pages 1 to 5 are read. *)
Lemma pdf_reads_first_pages_witness :
  let text :=
    lit "page 1" ++ nl ++ nl ++ lit "page 2" ++ nl ++ nl ++ lit "page 3"
    ++ nl ++ nl ++ lit "page 4" ++ nl ++ nl ++ lit "page 5" in
  App.pdf_full_text Examples.pdf_world Examples.pdf_response initial =
    (Ok text, State (EvExtractText <$> [0; 1; 2; 3; 4]%nat) ∅)
  ∧ Digest.pdf_full_text Examples.pdf_world (lit "https://example.org/paper") 5 initial =
      (Ok text,
       State (EvGet (lit "https://example.org/paper")
              :: (EvExtractText <$> [0; 1; 2; 3; 4]%nat)) ∅).
Proof.
  exact (proj2 (pdf_reads_first_pages Examples.pdf_world (lit "https://example.org/paper")
                  Examples.pdf_response Examples.eight_pages
                  [lit "page 1"; lit "page 2"; lit "page 3"; lit "page 4"; lit "page 5"]
                  initial eq_refl eq_refl eq_refl eq_refl)).
Defined.

End Extractor.

(** ** Text normalizer and the gate before the summarizer *)
Module Normalizer.
Import PyFacts NormFacts ReadFacts.








(** C2: a text whose collapsed, stripped form is longer than 10000
    characters is cut to its first 10000 characters followed by the
    marker ["... [truncated]"], 10015 characters in all.  The marker is
    the only sign of truncation that the programs produce. *)
Theorem long_text_truncated (text : str) :
  len (collapse text) > 10000 →
  ∃ out,
    Digest.clean_text text 10000 = Ok out
    ∧ App.normalize text = Ok out
    ∧ len out = 10000 + len (lit "... [truncated]")
    ∧ len out = 10015
    ∧ endswith out (lit "... [truncated]") = true
    ∧ slice_to out 10000 = slice_to (collapse text) 10000.
Proof.
  intros Hlong.
  assert (Hc := clean_text_long text 10000 ltac:(lia) ltac:(lia)).
  eexists. split; [exact Hc|].
  split; [by rewrite normalize_clean_text, Hc|].
  assert (Hl : length (take (Z.to_nat 10000) (collapse text)) = Z.to_nat 10000).
  { apply length_take_le. unfold len in Hlong. lia. }
  split; [|split; [|split]].
  - rewrite len_app. unfold len at 1. rewrite Hl. lia.
  - rewrite len_app, len_marker. unfold len at 1. rewrite Hl. lia.
  - apply endswith_app.
  - rewrite !slice_to_nonneg by lia. rewrite <- Hl at 1.
    by rewrite take_app_length.
Qed.

Lemma long_text_truncated_witness :
  len (collapse (Examples.words 3334)) > 10000
  ∧ ∃ out,
      Digest.clean_text (Examples.words 3334) 10000 = Ok out
      ∧ App.normalize (Examples.words 3334) = Ok out
      ∧ len out = 10000 + len (lit "... [truncated]")
      ∧ len out = 10015
      ∧ endswith out (lit "... [truncated]") = true
      ∧ slice_to out 10000 = slice_to (collapse (Examples.words 3334)) 10000.
Proof.
  assert (H : len (collapse (Examples.words 3334)) > 10000) by (by vm_compute).
  split; [exact H|]. exact (long_text_truncated (Examples.words 3334) H).
Defined.

(** C9 as stated fails twice over: a text with no whitespace runs that
    is shorter than 100 characters is rejected rather than returned, and
    a single tab between two words is replaced by a space. *)
Lemma idempotence_counterexample :
  (no_whitespace_runs (lit "abc") = true
   ∧ len (lit "abc") <= 10000
   ∧ Digest.clean_text (lit "abc") 10000
     = Err (Raise ValueError Digest.too_short_msg))
  ∧ (no_whitespace_runs Examples.tabbed_text = true
     ∧ len Examples.tabbed_text = 121
     ∧ Digest.clean_text Examples.tabbed_text 10000
       = Ok (Examples.letters 60 ++ lit " " ++ Examples.letters 60)
     ∧ Examples.letters 60 ++ lit " " ++ Examples.letters 60
       ≠ Examples.tabbed_text).
Proof. repeat split; by vm_compute. Qed.

(** C9, as the programs have it: a text of 100 to 10000 characters in
    which every whitespace character is a single space between two
    other characters is returned unchanged. *)
Theorem normalized_text_unchanged (s : str) :
  space_separated s = true →
  100 <= len s <= 10000 →
  Digest.clean_text s 10000 = Ok s ∧ App.normalize s = Ok s.
Proof.
  intros Hs Hlen.
  pose proof (clean_text_fixed s 10000 Hs Hlen) as Hc.
  split; [done|]. by rewrite normalize_clean_text, Hc.
Qed.

(** Every text that the normalization returns, cut or not, is returned
    unchanged when it is normalized again. *)
Lemma clean_text_idempotent (text out : str) :
  Digest.clean_text text 10000 = Ok out →
  Digest.clean_text out 10000 = Ok out.
Proof.
  intros (Hs & Hlo & [Hhi|Hcut])%clean_text_output.
  - by apply clean_text_fixed.
  - destruct (Z.le_gt_cases (len out) 10000) as [Hle|Hgt];
      [by apply clean_text_fixed|].
    rewrite clean_text_long, (collapse_space_separated out Hs) by
      (rewrite ?(collapse_space_separated out Hs); lia).
    by rewrite <- Hcut.
Qed.

(** A page whose text is too short: the run of "Summarize & Save" is
    the request, then the error message. *)
Example short_page_example :
  App.summarize_and_save (Examples.replying []) (Some (lit "sk-test")) None
    (lit "https://example.org/") initial =
  (Ok Continues,
   State [EvGet (lit "https://example.org/");
          EvStError (cross_mark ++ lit " An error occurred: Error processing content: "
                     ++ App.too_short_msg)] ∅).
Proof. by vm_compute. Qed.

Lemma normalized_text_unchanged_witness :
  space_separated (Examples.letters 60 ++ lit " " ++ Examples.letters 60) = true
  ∧ Digest.clean_text (Examples.letters 60 ++ lit " " ++ Examples.letters 60) 10000
    = Ok (Examples.letters 60 ++ lit " " ++ Examples.letters 60)
  ∧ App.normalize (Examples.letters 60 ++ lit " " ++ Examples.letters 60)
    = Ok (Examples.letters 60 ++ lit " " ++ Examples.letters 60).
Proof.
  split; [by vm_compute|].
  apply normalized_text_unchanged; [by vm_compute|].
  split; by vm_compute.
Defined.

End Normalizer.

(** ** Content fetcher *)
Module Fetcher.
Import PyFacts ReadFacts.

Lemma contains_suffix (p r : str) : contains p (r ++ p) = true.
Proof.
  induction r as [|c r IH]; simpl.
  - pose proof (startswith_app p []) as H. rewrite app_nil_r in H.
    destruct p; [done|]. cbn [contains]. by rewrite H.
  - by rewrite IH, orb_true_r.
Qed.

Lemma endswith_contains (s p : str) :
  endswith s p = true → contains p s = true.
Proof. intros [r ->]%endswith_spec. apply contains_suffix. Qed.

(** C3 as stated fails: an address ending in [.pdf] that is served as
    [text/html] is read as a PDF by [fetch_content_from_url], so the
    declared content type does not overrule the extension; and [main] of
    [paper_digest_assistant.py] treats an address as a PDF because the
    letters [pdf] occur in it, without any content type. *)
Lemma content_type_not_authoritative_counterexample :
  let url := lit "https://example.org/paper.pdf" in
  (extension_says_pdf url = true
   ∧ content_type_says_pdf (lit "text/html; charset=utf-8") = false
   ∧ App.is_pdf url (App.content_type_of Examples.html_response) = true)
  ∧ ¬ content_type_authoritative
  ∧ (extension_says_pdf (lit "https://example.org/pdf-tips.html") = false
     ∧ Digest.is_pdf_url (lit "https://example.org/pdf-tips.html") = true).
Proof.
  split; [by vm_compute|]. split; [|by vm_compute].
  intros H.
  specialize (H (lit "https://example.org/paper.pdf") Examples.html_response
                (lit "text/html; charset=utf-8") eq_refl).
  by vm_compute in H; specialize (H ltac:(discriminate)).
Qed.

(** C3, as the programs have it.  [fetch_content_from_url] takes the PDF
    branch exactly when the address ends in [.pdf] or the lower-cased
    [Content-Type] header (empty when absent) contains
    [application/pdf]: an address ending in [.pdf] is a PDF whatever
    content type is declared, and the content type decides only for the
    other addresses.  [main] of [paper_digest_assistant.py] calls
    [fetch_pdf_text] exactly when the lower-cased address contains
    [pdf], and [fetch_html_text] otherwise. *)
Theorem pdf_detection (url : str) (r : response) :
  (App.is_pdf url (App.content_type_of r) = true
   ↔ endswith url (lit ".pdf") = true
     ∨ contains (lit "application/pdf")
         (lower (default [] (resp_content_type r))) = true)
  ∧ (extension_says_pdf url = true →
     App.is_pdf url (App.content_type_of r) = true)
  ∧ (extension_says_pdf url = false →
     App.is_pdf url (App.content_type_of r)
     = content_type_says_pdf (default [] (resp_content_type r)))
  ∧ (∀ w st,
       requests_get w url = Ok r → resp_http_error r = None →
       App.extract_full_text w url st =
         (if App.is_pdf url (App.content_type_of r)
          then App.pdf_full_text w r
          else App.html_full_text w r)
           (State (trace st ++ [EvGet url]) (heap st)))
  ∧ (Digest.is_pdf_url url = true ↔ contains (lit "pdf") (lower url) = true)
  ∧ (∀ w session st,
       url ≠ [] →
       Digest.fetch_content w url session st =
         if Digest.is_pdf_url url
         then fetch_outcome url (lit "PDF") session (Digest.fetch_pdf_text w url 5 st)
         else fetch_outcome url (lit "HTML") session (Digest.fetch_html_text w url st)).
Proof.
  unfold App.is_pdf, App.content_type_of, extension_says_pdf,
    content_type_says_pdf.
  split; [apply orb_true_iff|]. split; [by intros ->|].
  split; [by intros ->|]. split; [|split].
  - intros w st Hget Hstatus. unfold App.extract_full_text, App.raise_for_status.
    run. rewrite Hget, Hstatus. done.
  - unfold Digest.is_pdf_url. rewrite orb_true_iff. split; [|by right].
    intros [H|H]; [|done].
    apply endswith_spec in H as [p Hp]. rewrite Hp.
    change (lit ".pdf") with ([46%N] ++ lit "pdf"). rewrite app_assoc.
    apply contains_suffix.
  - intros w session st Hurl. unfold Digest.fetch_content, fetch_outcome.
    destruct url as [|u us]; [done|].
    unfold try_except. unfold bind at 1.
    destruct (Digest.is_pdf_url (u :: us)); unfold bind at 1.
    + destruct (Digest.fetch_pdf_text _ _ _ _) as [[text|e] st1];
        unfold bind, emit, ret; cbn [trace heap]; [|done].
      reflexivity.
    + destruct (Digest.fetch_html_text _ _ _) as [[text|e] st1];
        unfold bind, emit, ret; cbn [trace heap]; [|done].
      reflexivity.
Qed.

End Fetcher.

(** ** Reading the reply of the summarization service *)
Module SummaryFacts.
Import PyFacts ReadFacts.

Lemma check_keys_ok (keys : list str) (d : gmap str json) :
  (∀ k, k ∈ keys → is_Some (d !! k)) →
  check_required_keys keys (JDict d) = Ok ().
Proof.
  induction keys as [|k keys IH]; intros H; simpl; [done|].
  destruct (H k) as [v Hv]; [by left|].
  rewrite bool_decide_eq_false_2 by congruence.
  apply IH. intros k' Hk'. apply H. by right.
Qed.

Lemma check_keys_missing (keys : list str) (d : gmap str json) (k : str) :
  first_missing keys d k →
  check_required_keys keys (JDict d) = Err (Raise Exception (missing_key_msg k)).
Proof.
  intros (pre & post & -> & Hpre & Hk).
  induction pre as [|p pre IH]; simpl.
  - by rewrite bool_decide_eq_true_2.
  - destruct (Hpre p) as [v Hv]; [by left|].
    rewrite bool_decide_eq_false_2 by congruence.
    apply IH. intros k' Hk'. apply Hpre. by right.
Qed.

(** A dictionary that lacks some key lacks a first one. *)
Lemma first_missing_exists (keys : list str) (d : gmap str json) :
  (∃ k, k ∈ keys ∧ d !! k = None) → ∃ k, first_missing keys d k.
Proof.
  induction keys as [|k keys IH]; intros (k0 & Hin & Hk0).
  - by apply elem_of_nil in Hin.
  - destruct (d !! k) as [v|] eqn:Hk.
    + destruct IH as (k1 & pre & post & -> & Hpre & Hk1).
      { apply elem_of_cons in Hin as [->|Hin]; [congruence|eauto]. }
      exists k1, (k :: pre), post. repeat split; [|done].
      intros k' [->|?]%elem_of_cons; [by rewrite Hk|auto].
    + exists k, [], keys. repeat split; [|done].
      by intros k' ?%elem_of_nil.
Qed.

Lemma first_missing_elem (keys : list str) (d : gmap str json) (k : str) :
  first_missing keys d k → k ∈ keys.
Proof.
  intros (pre & post & -> & _). apply elem_of_app. right. by left.
Qed.

Lemma ensure_list_dict (key : str) (d : gmap str json) (v : json) :
  d !! key = Some v →
  ensure_list key (JDict d) = Ok (JDict (<[key := coerce_list v]> d)).
Proof.
  intros Hv. unfold ensure_list. simpl. rewrite Hv.
  destruct v; simpl; try done. by rewrite insert_id.
Qed.

(** The two summarizers, as functions of what the service replies. *)
Lemma app_summarize_run (w : world) (text api_key : str) (st : state) :
  App.summarize_paper_with_openai w text api_key st =
    (match chat_completions_create w api_key App.system_message
             (App.user_message text) with
     | Ok content =>
         match read_summary w App.required_keys (lit "key_points") content with
         | Ok summary => Ok summary
         | Err e => Err (App.summarize_handler e)
         end
     | Err e => Err (App.summarize_handler e)
     end,
     State (trace st ++ [EvChat api_key App.system_message (App.user_message text)])
       (heap st)).
Proof.
  unfold App.summarize_paper_with_openai. run.
  destruct (chat_completions_create _ _ _ _); [|done].
  by destruct (read_summary _ _ _ _).
Qed.

Lemma digest_summarize_run (w : world) (text api_key : str) (st : state) :
  Digest.summarize_paper w text api_key st =
    (match chat_completions_create w api_key Digest.system_prompt
             (Digest.user_prompt text) with
     | Ok content =>
         match read_summary w Digest.required_keys (lit "key_findings") content with
         | Ok summary => Ok summary
         | Err e => Err (Digest.summarize_handler e)
         end
     | Err e => Err (Digest.summarize_handler e)
     end,
     State (trace st ++ [EvChat api_key Digest.system_prompt (Digest.user_prompt text)])
       (heap st)).
Proof.
  unfold Digest.summarize_paper. run.
  destruct (chat_completions_create _ _ _ _); [|done].
  by destruct (read_summary _ _ _ _).
Qed.

(** A reply that parses to a dictionary with every required key is
    accepted, with the list field coerced. *)
Lemma read_summary_ok (w : world) (keys : list str) (list_key content : str)
    (d : gmap str json) (v : json) :
  json_loads w (postprocess content) = Ok (JDict d) →
  (∀ k, k ∈ keys → is_Some (d !! k)) →
  d !! list_key = Some v →
  read_summary w keys list_key (Some content)
  = Ok (JDict (<[list_key := coerce_list v]> d)).
Proof.
  intros Hparse Hkeys Hv. unfold read_summary, parse_json.
  rewrite Hparse, check_keys_ok by done. by apply ensure_list_dict.
Qed.

Lemma read_summary_missing (w : world) (keys : list str)
    (list_key content : str) (d : gmap str json) (k : str) :
  json_loads w (postprocess content) = Ok (JDict d) →
  first_missing keys d k →
  read_summary w keys list_key (Some content)
  = Err (Raise Exception (missing_key_msg k)).
Proof.
  intros Hparse Hk. unfold read_summary, parse_json.
  by rewrite Hparse, (check_keys_missing keys d k).
Qed.

End SummaryFacts.

(** ** Code fences around a reply *)
Module FenceFacts.
Import PyFacts.

Lemma slice_from_app (p r : str) (n : Z) :
  n = len p → slice_from (p ++ r) n = r.
Proof.
  intros ->. unfold slice_from, len.
  destruct (Z.ltb_spec (Z.of_nat (length p)) 0); [lia|].
  by rewrite Nat2Z.id, drop_app_length.
Qed.

Lemma slice_to_app (b t : str) (n : Z) :
  n = - len t → t ≠ [] → slice_to (b ++ t) n = b.
Proof.
  intros -> Ht. unfold slice_to, len. rewrite length_app.
  assert (0 < length t)%nat by (destruct t; [done|simpl; lia]).
  destruct (Z.ltb_spec (- Z.of_nat (length t)) 0); [|lia].
  replace (Z.to_nat _) with (length b) by lia.
  apply take_app_length.
Qed.

Lemma startswith_prefix (s p p' : str) :
  startswith s (p ++ p') = true → startswith s p = true.
Proof.
  intros [r ->]%startswith_spec. rewrite <- app_assoc. apply startswith_app.
Qed.

Lemma blank_app (a b : str) : blank (a ++ b) = blank a && blank b.
Proof. apply forallb_app. Qed.

Lemma lstrip_blank_app (ws x : str) :
  blank ws = true → lstrip (ws ++ x) = lstrip x.
Proof.
  induction ws as [|c ws IH]; simpl; [done|].
  intros [-> ?]%andb_true_iff. auto.
Qed.

Lemma rstrip_app_blank (ws x : str) :
  blank ws = true → rstrip (x ++ ws) = rstrip x.
Proof.
  induction ws as [|c ws IH] using rev_ind; intros H.
  - by rewrite app_nil_r.
  - rewrite blank_app in H. apply andb_true_iff in H as [Hws Hc].
    simpl in Hc. rewrite andb_true_r in Hc.
    by rewrite app_assoc, rstrip_snoc, Hc, IH.
Qed.

(** Whitespace around a text that starts and ends with other
    characters is all that [strip] removes. *)
Lemma strip_padded (ws ws' : str) (c d : char) (m : str) :
  blank ws = true → blank ws' = true →
  isspace c = false → isspace d = false →
  strip (ws ++ (c :: m ++ [d]) ++ ws') = c :: m ++ [d].
Proof.
  intros Hws Hws' Hc Hd. unfold strip.
  rewrite lstrip_blank_app by done.
  simpl lstrip. rewrite Hc.
  change (c :: (m ++ [d]) ++ ws') with ((c :: m ++ [d]) ++ ws').
  rewrite rstrip_app_blank by done.
  change (c :: m ++ [d]) with ((c :: m) ++ [d]).
  by rewrite rstrip_snoc, Hd.
Qed.

Lemma json_fence_cons : json_fence = 96%N :: lit "``json".
Proof. reflexivity. Qed.

Lemma fence_snoc : fence = lit "``" ++ [96%N].
Proof. reflexivity. Qed.

Ltac list_norm := repeat (rewrite <- ?app_assoc; progress cbn [app]);
                  rewrite <- ?app_assoc.

Lemma startswith_fence_head (c : char) (t : str) :
  c ≠ 96%N → startswith (c :: t) fence = false.
Proof.
  intros Hc. change fence with (96%N :: lit "``"). cbn [startswith].
  destruct (N.eqb_spec 96 c); [congruence|done].
Qed.

(** What "remove markdown code blocks" removes: one of four leading
    markers and possibly a trailing fence, then the whitespace around
    what is left. *)
Lemma remove_code_blocks_parts (c : str) :
  ∃ lead body trail,
    c = lead ++ body ++ trail
    ∧ remove_code_blocks c = strip body
    ∧ (lead = [] ∧ startswith c fence = false
       ∨ lead = fence ∧ startswith c json_fence = false
       ∨ lead = json_fence ∧ startswith (body ++ trail) fence = false
       ∨ lead = json_fence ++ fence)
    ∧ (trail = [] ∧ endswith body fence = false ∨ trail = fence).
Proof.
  unfold remove_code_blocks. fold fence json_fence.
  assert (Htrail : ∀ c2 : str, ∃ body trail,
             c2 = body ++ trail
             ∧ (if endswith c2 fence then slice_to c2 (-3) else c2) = body
             ∧ (trail = [] ∧ endswith body fence = false ∨ trail = fence)).
  { intros c2. destruct (endswith c2 fence) eqn:E.
    - apply endswith_spec in E as [b ->]. exists b, fence.
      split; [done|]. split; [by apply slice_to_app|by right].
    - exists c2, []. rewrite app_nil_r. split; [done|]. split; [done|by left]. }
  destruct (startswith c json_fence) eqn:E1.
  - apply startswith_spec in E1 as [r ->].
    rewrite (slice_from_app json_fence r 7) by done.
    destruct (startswith r fence) eqn:E2.
    + apply startswith_spec in E2 as [r2 ->].
      rewrite (slice_from_app fence r2 3) by done.
      destruct (Htrail r2) as (body & trail & -> & Hb & Ht).
      exists (json_fence ++ fence), body, trail.
      rewrite Hb, <- !app_assoc. repeat split; [|done]. by do 3 right.
    + destruct (Htrail r) as (body & trail & -> & Hb & Ht).
      exists json_fence, body, trail. rewrite Hb.
      repeat split; [|done]. right. right. by left.
  - destruct (startswith c fence) eqn:E2.
    + apply startswith_spec in E2 as [r ->].
      rewrite (slice_from_app fence r 3) by done.
      destruct (Htrail r) as (body & trail & -> & Hb & Ht).
      exists fence, body, trail. rewrite Hb.
      repeat split; [|done]. right. by left.
    + destruct (Htrail c) as (body & trail & -> & Hb & Ht).
      exists [], body, trail. rewrite Hb.
      repeat split; [|done]. by left.
Qed.

(** A JSON object between a tagged fence and a closing fence, with any
    whitespace around and between them, is handed to the parser as it
    is. *)
Lemma postprocess_fenced (ws0 ws1 ws2 ws3 mid : str) :
  blank ws0 = true → blank ws1 = true → blank ws2 = true → blank ws3 = true →
  postprocess
    (ws0 ++ json_fence ++ ws1 ++ (lit "{" ++ mid ++ lit "}") ++ ws2 ++ fence ++ ws3)
  = lit "{" ++ mid ++ lit "}".
Proof.
  intros H0 H1 H2 H3. unfold postprocess.
  set (body := lit "{" ++ mid ++ lit "}").
  set (rest := ws1 ++ body ++ ws2).
  assert (Hstrip :
    strip (ws0 ++ json_fence ++ ws1 ++ body ++ ws2 ++ fence ++ ws3)
    = json_fence ++ rest ++ fence).
  { replace (ws0 ++ json_fence ++ ws1 ++ body ++ ws2 ++ fence ++ ws3)
      with (ws0 ++ (96%N :: (lit "``json" ++ rest ++ lit "``") ++ [96%N]) ++ ws3).
    - rewrite strip_padded by done.
      rewrite json_fence_cons, fence_snoc. unfold rest. by list_norm.
    - rewrite json_fence_cons, fence_snoc. unfold rest. by list_norm. }
  rewrite Hstrip. unfold remove_code_blocks. fold json_fence fence.
  rewrite startswith_app, (slice_from_app json_fence _ 7) by done.
  assert (Hno : startswith (rest ++ fence) fence = false).
  { unfold rest. destruct ws1 as [|s ws1]; simpl app.
    - by apply startswith_fence_head.
    - apply startswith_fence_head. simpl in H1.
      apply andb_true_iff in H1 as [Hs _]. by intros ->. }
  rewrite Hno, endswith_app, slice_to_app by done.
  unfold rest, body.
  replace (ws1 ++ (lit "{" ++ mid ++ lit "}") ++ ws2)
    with (ws1 ++ (123%N :: mid ++ [125%N]) ++ ws2) by done.
  by apply strip_padded.
Qed.

End FenceFacts.

(** ** Structured extractor *)
Module Summarizer.
Import PyFacts ReadFacts SummaryFacts FenceFacts.

(** C4 as stated fails for a reply that is valid JSON but not an
    object: the array of the four key names passes the check of the
    required keys (each name is [in] the list), and the coercion block
    then raises [TypeError] on [summary["key_points"]], so the record
    fails in the coercion. *)
Lemma coercion_fails_counterexample :
  check_required_keys App.required_keys Examples.keys_array = Ok ()
  ∧ ensure_list (lit "key_points") Examples.keys_array
    = Err (Raise TypeError (lit "list indices must be integers or slices, not str"))
  ∧ App.summarize_paper_with_openai
      (Examples.parsing_to Examples.keys_array_text Examples.keys_array)
      (lit "text") (lit "sk-test") initial =
    (Err (Raise Exception
            (lit "Error summarizing paper with OpenAI: list indices must be integers or slices, not str")),
     State [EvChat (lit "sk-test") App.system_message (App.user_message (lit "text"))] ∅).
Proof. repeat split; by vm_compute. Qed.

(** C4, as the programs have it: when the reply parses to a JSON object
    (a dictionary) with every required key, the summarizer succeeds
    whatever the list-typed field holds, and returns the dictionary with
    that field coerced: a list is kept, a string [s] becomes [[s]], any
    other value becomes [[]]. *)
Theorem list_field_coerced (w : world) (content : str) (d : gmap str json) :
  json_loads w (postprocess content) = Ok (JDict d) →
  (∀ text api_key st v,
     chat_completions_create w api_key App.system_message (App.user_message text)
       = Ok (Some content) →
     (∀ k, k ∈ App.required_keys → is_Some (d !! k)) →
     d !! lit "key_points" = Some v →
     App.summarize_paper_with_openai w text api_key st =
       (Ok (JDict (<[lit "key_points" := coerce_list v]> d)),
        State (trace st ++ [EvChat api_key App.system_message (App.user_message text)])
          (heap st)))
  ∧ (∀ text api_key st v,
       chat_completions_create w api_key Digest.system_prompt (Digest.user_prompt text)
         = Ok (Some content) →
       (∀ k, k ∈ Digest.required_keys → is_Some (d !! k)) →
       d !! lit "key_findings" = Some v →
       Digest.summarize_paper w text api_key st =
         (Ok (JDict (<[lit "key_findings" := coerce_list v]> d)),
          State (trace st ++ [EvChat api_key Digest.system_prompt (Digest.user_prompt text)])
            (heap st)))
  ∧ (∀ key l, d !! key = Some (JList l) → <[key := coerce_list (JList l)]> d = d)
  ∧ (∀ s, coerce_list (JStr s) = JList [JStr s]).
Proof.
  intros Hparse. split; [|split; [|split]].
  - intros text api_key st v Hchat Hkeys Hv.
    rewrite app_summarize_run, Hchat.
    by rewrite (read_summary_ok w _ _ content d v).
  - intros text api_key st v Hchat Hkeys Hv.
    rewrite digest_summarize_run, Hchat.
    by rewrite (read_summary_ok w _ _ content d v).
  - intros key l H. by apply insert_id.
  - done.
Qed.

Ltac all_keys :=
  let k := fresh "k" in let H := fresh "H" in
  intros k H; repeat (apply elem_of_cons in H as [->|H]; [by vm_compute; eexists|]);
  by apply elem_of_nil in H.

(** A bare string in [key_points] comes back as a one-element list. *)
Lemma list_field_coerced_witness :
  App.summarize_paper_with_openai
    (Examples.replying (Examples.fenced Examples.summary_text))
    (lit "text") (lit "sk-test") initial =
  (Ok (JDict (<[lit "key_points" := JList [JStr (lit "only one")]]>
                Examples.summary_dict)),
   State [EvChat (lit "sk-test") App.system_message (App.user_message (lit "text"))] ∅).
Proof.
  refine (proj1 (list_field_coerced
                   (Examples.replying (Examples.fenced Examples.summary_text))
                   (Examples.fenced Examples.summary_text)
                   Examples.summary_dict _)
            (lit "text") (lit "sk-test") initial (JStr (lit "only one")) eq_refl _ _).
  - by vm_compute.
  - all_keys.
  - by vm_compute.
Defined.

Lemma handler_missing_app (k : str) :
  k ∈ App.required_keys →
  App.summarize_handler (Raise Exception (missing_key_msg k)) =
  Raise Exception (lit "Error summarizing paper with OpenAI: " ++ missing_key_msg k).
Proof.
  intros H. unfold App.required_keys in H.
  repeat (apply elem_of_cons in H as [->|H]; [by vm_compute|]).
  by apply elem_of_nil in H.
Qed.

Lemma handler_missing_digest (k : str) :
  k ∈ Digest.required_keys →
  Digest.summarize_handler (Raise Exception (missing_key_msg k)) =
  Raise Exception (lit "Error summarizing paper with OpenAI: " ++ missing_key_msg k).
Proof.
  intros H. unfold Digest.required_keys in H.
  repeat (apply elem_of_cons in H as [->|H]; [by vm_compute|]).
  by apply elem_of_nil in H.
Qed.

(** C5 as stated fails for a reply that is valid JSON but not an
    object: for the number 5 the test [key not in summary] itself raises
    [TypeError], and the message that reaches the caller names none of
    the required keys. *)
Lemma no_key_named_counterexample :
  let msg := lit "Error summarizing paper with OpenAI: argument of type 'int' is not iterable" in
  App.summarize_paper_with_openai (Examples.parsing_to (lit "5") (JInt 5))
    (lit "text") (lit "sk-test") initial =
    (Err (Raise Exception msg),
     State [EvChat (lit "sk-test") App.system_message (App.user_message (lit "text"))] ∅)
  ∧ forallb (λ k, negb (contains k msg)) App.required_keys = true.
Proof. split; by vm_compute. Qed.

(** C5, as the programs have it: when the reply parses to a JSON object
    (a dictionary) that lacks a required key, the summarizer raises, and
    the message carries the name of the first required key, in the order
    of [required_keys], that is absent.  The exception is a plain
    [Exception]; the programs have no separate class for a schema
    violation. *)
Theorem missing_key_reported (w : world) (content : str) (d : gmap str json) :
  json_loads w (postprocess content) = Ok (JDict d) →
  ((∃ k, k ∈ App.required_keys ∧ d !! k = None) →
   ∃ k, first_missing App.required_keys d k)
  ∧ (∀ k text api_key st,
       first_missing App.required_keys d k →
       chat_completions_create w api_key App.system_message (App.user_message text)
         = Ok (Some content) →
       App.summarize_paper_with_openai w text api_key st =
         (Err (Raise Exception
                 (lit "Error summarizing paper with OpenAI: Missing required key '"
                  ++ k ++ lit "' in OpenAI response")),
          State (trace st ++ [EvChat api_key App.system_message (App.user_message text)])
            (heap st)))
  ∧ ((∃ k, k ∈ Digest.required_keys ∧ d !! k = None) →
     ∃ k, first_missing Digest.required_keys d k)
  ∧ (∀ k text api_key st,
       first_missing Digest.required_keys d k →
       chat_completions_create w api_key Digest.system_prompt (Digest.user_prompt text)
         = Ok (Some content) →
       Digest.summarize_paper w text api_key st =
         (Err (Raise Exception
                 (lit "Error summarizing paper with OpenAI: Missing required key '"
                  ++ k ++ lit "' in OpenAI response")),
          State (trace st ++ [EvChat api_key Digest.system_prompt (Digest.user_prompt text)])
            (heap st))).
Proof.
  intros Hparse. split; [apply first_missing_exists|].
  split; [|split; [apply first_missing_exists|]].
  - intros k text api_key st Hk Hchat.
    rewrite app_summarize_run, Hchat.
    rewrite (read_summary_missing w _ _ content d k) by done.
    rewrite handler_missing_app by (by eapply first_missing_elem).
    reflexivity.
  - intros k text api_key st Hk Hchat.
    rewrite digest_summarize_run, Hchat.
    rewrite (read_summary_missing w _ _ content d k) by done.
    rewrite handler_missing_digest by (by eapply first_missing_elem).
    reflexivity.
Qed.

(** Scenario 4: the reply [{"title": "X"}] is rejected for
    [abstract_summary]. *)
Lemma missing_key_reported_witness :
  App.summarize_paper_with_openai
    (Examples.replying Examples.title_only_text) (lit "text") (lit "sk-test") initial =
  (Err (Raise Exception
          (lit "Error summarizing paper with OpenAI: Missing required key 'abstract_summary' in OpenAI response")),
   State [EvChat (lit "sk-test") App.system_message (App.user_message (lit "text"))] ∅).
Proof.
  refine (proj1 (proj2 (missing_key_reported
                          (Examples.replying Examples.title_only_text)
                          Examples.title_only_text Examples.title_only_dict _))
            (lit "abstract_summary") (lit "text") (lit "sk-test") initial _ eq_refl).
  - by vm_compute.
  - exists [lit "title"], [lit "key_points"; lit "methodology"].
    split; [done|]. split; [|by vm_compute].
    intros k' H. apply elem_of_cons in H as [->|H]; [by vm_compute; eexists|].
    by apply elem_of_nil in H.
Defined.

(** Replies that parse to something other than an object: an array or
    a string is searched for the key names, a number is not searchable
    and the check itself raises. *)
Example non_object_replies :
  check_required_keys App.required_keys (JList [])
  = Err (Raise Exception (missing_key_msg (lit "title")))
  ∧ check_required_keys App.required_keys (JInt 42)
    = Err (Raise TypeError (lit "argument of type 'int' is not iterable")).
Proof. split; by vm_compute. Qed.

(** C6: before parsing, the reply is stripped, a leading fence is
    removed if there is one (with its [json] tag if it has one, and with a
    further fence if one follows the tag directly), then a trailing fence
    is removed if there is one, and what is left is stripped.  In
    particular a JSON object between [```json] and [```], with any
    whitespace around and between them, reaches the parser bare, and is
    accepted when it has the required keys. *)
Theorem fences_stripped (content : str) :
  (∃ lead body trail,
     strip content = lead ++ body ++ trail
     ∧ postprocess content = strip body
     ∧ (lead = [] ∧ startswith (strip content) fence = false
        ∨ lead = fence ∧ startswith (strip content) json_fence = false
        ∨ lead = json_fence ∧ startswith (body ++ trail) fence = false
        ∨ lead = json_fence ++ fence)
     ∧ (trail = [] ∧ endswith body fence = false ∨ trail = fence))
  ∧ (∀ ws0 ws1 ws2 ws3 mid,
       blank ws0 = true → blank ws1 = true →
       blank ws2 = true → blank ws3 = true →
       content = ws0 ++ json_fence ++ ws1 ++ (lit "{" ++ mid ++ lit "}")
                 ++ ws2 ++ fence ++ ws3 →
       postprocess content = lit "{" ++ mid ++ lit "}"
       ∧ ∀ w d,
           json_loads w (lit "{" ++ mid ++ lit "}") = Ok (JDict d) →
           (∀ text api_key st v,
              chat_completions_create w api_key App.system_message
                (App.user_message text) = Ok (Some content) →
              (∀ k, k ∈ App.required_keys → is_Some (d !! k)) →
              d !! lit "key_points" = Some v →
              App.summarize_paper_with_openai w text api_key st =
                (Ok (JDict (<[lit "key_points" := coerce_list v]> d)),
                 State (trace st ++ [EvChat api_key App.system_message
                                       (App.user_message text)]) (heap st)))
           ∧ (∀ text api_key st v,
                chat_completions_create w api_key Digest.system_prompt
                  (Digest.user_prompt text) = Ok (Some content) →
                (∀ k, k ∈ Digest.required_keys → is_Some (d !! k)) →
                d !! lit "key_findings" = Some v →
                Digest.summarize_paper w text api_key st =
                  (Ok (JDict (<[lit "key_findings" := coerce_list v]> d)),
                   State (trace st ++ [EvChat api_key Digest.system_prompt
                                         (Digest.user_prompt text)]) (heap st)))).
Proof.
  split.
  - unfold postprocess. apply remove_code_blocks_parts.
  - intros ws0 ws1 ws2 ws3 mid H0 H1 H2 H3 ->.
    pose proof (postprocess_fenced ws0 ws1 ws2 ws3 mid H0 H1 H2 H3) as Hpost.
    split; [done|]. intros w d Hparse. rewrite <- Hpost in Hparse. split.
    + intros text api_key st v Hchat Hkeys Hv.
      rewrite app_summarize_run, Hchat.
      by rewrite (read_summary_ok w _ _ _ d v).
    + intros text api_key st v Hchat Hkeys Hv.
      rewrite digest_summarize_run, Hchat.
      by rewrite (read_summary_ok w _ _ _ d v).
Qed.

(** Scenario 3, and a reply that opens with a tagged fence directly
    followed by another fence: both are removed. *)
Example fenced_reply_examples :
  postprocess (Examples.fenced Examples.summary_text) = Examples.summary_text
  ∧ postprocess (lit "```json```x") = lit "x"
  ∧ postprocess (lit "  ```" ++ nl ++ lit "[1]" ++ nl ++ lit "```" ++ nl) = lit "[1]".
Proof. repeat split; by vm_compute. Qed.

End Summarizer.

(** ** Record sink *)
Module Sink.
Import PyFacts ReadFacts.

Lemma str_items_strings (xs : list str) (i : nat) :
  str_items i (JStr <$> xs) = Ok xs.
Proof.
  revert i. induction xs as [|x xs IH]; intros i; simpl; [done|].
  by rewrite IH.
Qed.

Lemma join_bulleted (sep : str) (xs : list str) :
  xs ≠ [] → sep ++ join sep xs = mjoin ((λ x, sep ++ x) <$> xs).
Proof.
  induction xs as [|x xs IH]; [done|]. intros _.
  destruct xs as [|y xs].
  - simpl. by rewrite app_nil_r.
  - rewrite join_cons_cons.
    change (mjoin ((λ x, sep ++ x) <$> x :: y :: xs))
      with ((sep ++ x) ++ mjoin ((λ x, sep ++ x) <$> y :: xs)).
    rewrite <- IH by done. by rewrite <- app_assoc.
Qed.

Lemma bullet_join_strings (xs : list str) :
  App.bullet_join (JStr <$> xs) = Ok (bulleted xs).
Proof.
  unfold App.bullet_join, join_values.
  change (JStr [] :: (JStr <$> xs)) with (JStr <$> ([] :: xs)).
  rewrite str_items_strings. f_equal.
  destruct xs as [|x xs]; [done|].
  rewrite join_cons_cons. cbn [app].
  by rewrite join_bulleted.
Qed.

(** [insert_paper_record] on a dictionary whose [key_points] is a list
    that can be joined: the dictionary behind the reference is
    overwritten, then sent. *)
Lemma insert_run (w : world) (data : loc) (d : gmap str json)
    (items : list json) (s : str) (st : state) :
  heap st !! data = Some d →
  d !! lit "key_points" = Some (JList items) →
  App.bullet_join items = Ok s →
  App.insert_paper_record w data st =
    (match supabase_insert w (lit "papers") (<[lit "key_points" := JStr s]> d) with
     | Ok (row :: _) => Ok row
     | Ok [] =>
         Err (App.insert_handler
                (Raise Exception
                   (lit "Failed to insert paper record: No data returned from Supabase")))
     | Err e => Err (App.insert_handler e)
     end,
     State (trace st ++ [EvInsert (lit "papers") (<[lit "key_points" := JStr s]> d)])
       (<[data := <[lit "key_points" := JStr s]> d]> (heap st))).
Proof.
  intros Hd Hk Hs. unfold App.insert_paper_record.
  unfold try_except, bind, deref, store, call, emit, lift, ret, raise.
  rewrite Hd, Hk, Hs. cbn [heap trace]. rewrite lookup_insert_eq.
  destruct (supabase_insert _ _ _) as [[|row rows]|e]; done.
Qed.

(** C7 as stated fails: the flattened text starts with a newline. *)
Lemma flatten_counterexample :
  App.bullet_join [JStr (lit "first"); JStr (lit "second")]
  = Ok (nl ++ lit "- first" ++ nl ++ lit "- second")
  ∧ App.key_points_text (JDict Examples.listed_dict)
    = Ok (nl ++ lit "- first" ++ nl ++ lit "- second")
  ∧ flatten_as_stated [lit "first"; lit "second"]
    = lit "- first" ++ nl ++ lit "- second"
  ∧ nl ++ lit "- first" ++ nl ++ lit "- second"
    ≠ flatten_as_stated [lit "first"; lit "second"].
Proof. repeat split; by vm_compute. Qed.

(** C7, as the program has it: a list of strings [[x1; ...; xn]] is
    flattened to ["\n- x1\n- x2...\n- xn"]: every item, the first too,
    is preceded by a newline and ["- "], in the order of the list, and
    the empty list gives the empty string.  This is the text that [main]
    puts in the record and that [insert_paper_record] stores and
    sends. *)
Theorem list_field_flattened (xs : list str) :
  App.bullet_join (JStr <$> xs) = Ok (bulleted xs)
  ∧ (xs ≠ [] → bulleted xs = nl ++ flatten_as_stated xs)
  ∧ (xs = [] → bulleted xs = [])
  ∧ (∀ d, d !! lit "key_points" = Some (JList (JStr <$> xs)) →
          App.key_points_text (JDict d) = Ok (bulleted xs))
  ∧ (∀ w data d st,
       heap st !! data = Some d →
       d !! lit "key_points" = Some (JList (JStr <$> xs)) →
       ∃ res, App.insert_paper_record w data st =
                (res,
                 State (trace st
                        ++ [EvInsert (lit "papers")
                              (<[lit "key_points" := JStr (bulleted xs)]> d)])
                   (<[data := <[lit "key_points" := JStr (bulleted xs)]> d]>
                      (heap st)))).
Proof.
  split; [apply bullet_join_strings|]. split; [|split; [by intros ->|split]].
  - intros Hne. unfold bulleted, flatten_as_stated.
    destruct xs as [|x xs]; [done|]. clear Hne.
    revert x. induction xs as [|y xs IH]; intros x.
    + simpl. by rewrite !app_nil_r.
    + change (mjoin ((λ x, nl ++ lit "- " ++ x) <$> x :: y :: xs))
        with ((nl ++ lit "- " ++ x)
              ++ mjoin ((λ x, nl ++ lit "- " ++ x) <$> y :: xs)).
      rewrite IH.
      change (join nl ((λ x, lit "- " ++ x) <$> x :: y :: xs))
        with ((lit "- " ++ x) ++ nl
              ++ join nl ((λ x, lit "- " ++ x) <$> y :: xs)).
      by rewrite <- !app_assoc.
  - intros d Hd. unfold App.key_points_text. simpl getitem. rewrite Hd.
    apply bullet_join_strings.
  - intros w data d st Hh Hd. eexists.
    apply (insert_run w data d (JStr <$> xs)); [done..|apply bullet_join_strings].
Qed.

(** C10: when the dictionary passed to [insert_paper_record] has a list
    under [key_points] (a list that can be joined), the dictionary
    behind the caller's reference has that entry overwritten with the
    flattened text, whether or not the insert then succeeds; the caller
    no longer holds the list. *)
Theorem insert_mutates_callers_dict (w : world) (data : loc)
    (d : gmap str json) (items : list json) (s : str) (st : state) :
  heap st !! data = Some d →
  d !! lit "key_points" = Some (JList items) →
  App.bullet_join items = Ok s →
  ∃ res st',
    App.insert_paper_record w data st = (res, st')
    ∧ heap st' !! data = Some (<[lit "key_points" := JStr s]> d)
    ∧ heap st' !! data ≠ heap st !! data
    ∧ trace st' = trace st
                  ++ [EvInsert (lit "papers") (<[lit "key_points" := JStr s]> d)].
Proof.
  intros Hh Hd Hs. eexists _, _. split; [by apply (insert_run w data d items s)|].
  cbn [heap trace]. rewrite lookup_insert_eq, Hh. split; [done|]. split; [|done].
  intros [= Heq]. apply (f_equal (λ m, m !! lit "key_points")) in Heq.
  rewrite lookup_insert_eq, Hd in Heq. done.
Qed.

Lemma insert_mutates_callers_dict_witness :
  ∃ res st',
    App.insert_paper_record (Examples.replying []) 1%positive
      Examples.callers_state = (res, st')
    ∧ heap st' !! 1%positive
      = Some (<[lit "key_points" := JStr (nl ++ lit "- first" ++ nl ++ lit "- second")]>
                Examples.listed_dict)
    ∧ heap st' !! 1%positive ≠ heap Examples.callers_state !! 1%positive
    ∧ trace st' = trace Examples.callers_state
                  ++ [EvInsert (lit "papers")
                        (<[lit "key_points" := JStr (nl ++ lit "- first" ++ nl ++ lit "- second")]>
                           Examples.listed_dict)].
Proof.
  apply (insert_mutates_callers_dict (Examples.replying []) 1%positive
           Examples.listed_dict [JStr (lit "first"); JStr (lit "second")]);
    by vm_compute.
Defined.

End Sink.

(** ** More on normalization and fetching *)
Module FetchMore.
Import PyFacts NormFacts ReadFacts.

(** With a cap below 85 characters [clean_text] accepts nothing: what
    is left after the cut, marker included, is under 100 characters. *)
Theorem small_cap_rejects_all (text : str) (max_length : Z) :
  0 <= max_length < 85 →
  Digest.clean_text text max_length = Err (Raise ValueError Digest.too_short_msg).
Proof.
  intros [Hlo Hhi]. unfold Digest.clean_text. fold (collapse text).
  set (t := if len (collapse text) >? max_length
            then slice_to (collapse text) max_length ++ lit "... [truncated]"
            else collapse text).
  assert (Ht : len t < 100).
  { unfold t. destruct (Z.gtb_spec (len (collapse text)) max_length).
    - rewrite slice_to_nonneg, len_app, len_marker by lia.
      unfold len in *. rewrite length_take. lia.
    - lia. }
  pose proof (len_strip_le t).
  destruct (Z.ltb_spec (len (strip t)) 100); [|lia].
  by rewrite orb_true_r.
Qed.

Lemma small_cap_rejects_all_witness :
  Digest.clean_text (Examples.letters 200) 50
  = Err (Raise ValueError Digest.too_short_msg).
Proof. apply small_cap_rejects_all. lia. Defined.

(** The cut comes before the length gate: with a cap of at least 85, a
    text longer than the cap is returned cut, [max_length + 15]
    characters long, even when the text itself has fewer than 100
    characters. *)
Theorem cut_precedes_gate (text : str) (max_length : Z) :
  85 <= max_length → max_length < len (collapse text) →
  ∃ out,
    Digest.clean_text text max_length = Ok out
    ∧ out = slice_to (collapse text) max_length ++ lit "... [truncated]"
    ∧ len out = max_length + 15.
Proof.
  intros Hcap Hlong. eexists. split; [by apply clean_text_long|].
  rewrite slice_to_nonneg by lia. split; [done|].
  rewrite len_app, len_marker. unfold len in *. rewrite length_take. lia.
Qed.

Lemma cut_precedes_gate_witness :
  len (collapse (Examples.letters 95)) = 95
  ∧ ∃ out,
      Digest.clean_text (Examples.letters 95) 90 = Ok out
      ∧ out = slice_to (collapse (Examples.letters 95)) 90 ++ lit "... [truncated]"
      ∧ len out = 90 + 15.
Proof.
  split; [by vm_compute|].
  apply cut_precedes_gate; [lia|by vm_compute].
Defined.

Lemma normalize_output (full text : str) :
  App.normalize full = Ok text →
  100 <= len text <= 10015 ∧ space_separated text = true.
Proof.
  rewrite normalize_clean_text.
  destruct (Digest.clean_text full 10000) as [t|e] eqn:E; [|done].
  intros [= <-]. apply clean_text_output in E as (Hs & Hlo & Hhi).
  split; [|done]. split; [done|].
  destruct Hhi as [?|Hcut]; [lia|].
  rewrite Hcut, len_app, len_marker. unfold len. rewrite length_take. lia.
Qed.

Lemma clean_text_output_bounds (full text : str) :
  Digest.clean_text full 10000 = Ok text →
  100 <= len text <= 10015 ∧ space_separated text = true.
Proof.
  intros E. apply normalize_output with full.
  by rewrite normalize_clean_text, E.
Qed.

(** Whatever a fetcher returns has 100 to 10015 characters, and its only
    whitespace is single spaces between other characters: no newline,
    no tab, nothing leading or trailing. *)
Theorem fetched_text_wellformed (w : world) (url text : str) (st st' : state) :
  App.fetch_content_from_url w url st = (Ok text, st')
  ∨ Digest.fetch_pdf_text w url 5 st = (Ok text, st')
  ∨ Digest.fetch_html_text w url st = (Ok text, st') →
  100 <= len text <= 10015 ∧ space_separated text = true.
Proof.
  intros [H|[H|H]].
  - unfold App.fetch_content_from_url in H. run.
    destruct (App.extract_full_text w url st) as [[full|e] st1]; [|done].
    destruct (App.normalize full) as [t|e] eqn:E; [|done].
    injection H as <- _. by apply normalize_output with full.
  - unfold Digest.fetch_pdf_text in H. run.
    destruct (Digest.pdf_full_text w url 5 st) as [[full|e] st1]; [|done].
    destruct (Digest.clean_text full 10000) as [t|e] eqn:E; [|done].
    injection H as <- _. by apply clean_text_output_bounds with full.
  - unfold Digest.fetch_html_text in H. run.
    destruct (Digest.html_full_text w url st) as [[full|e] st1]; [|done].
    destruct (Digest.clean_text full 10000) as [t|e] eqn:E; [|done].
    injection H as <- _. by apply clean_text_output_bounds with full.
Qed.

Lemma fetched_text_wellformed_witness :
  let text := Examples.letters 60 ++ lit " " ++ Examples.letters 60 in
  App.fetch_content_from_url Examples.article_world (lit "https://example.org/a") initial
  = (Ok text, State [EvGet (lit "https://example.org/a")] ∅)
  ∧ 100 <= len text <= 10015 ∧ space_separated text = true.
Proof.
  assert (H : App.fetch_content_from_url Examples.article_world
                (lit "https://example.org/a") initial
              = (Ok (Examples.letters 60 ++ lit " " ++ Examples.letters 60),
                 State [EvGet (lit "https://example.org/a")] ∅))
    by (by vm_compute).
  split; [exact H|].
  exact (fetched_text_wellformed _ _ _ _ _ (or_introl H)).
Defined.

End FetchMore.

(** ** Failures while fetching and extracting *)
Module ExtractMore.
Import PyFacts NormFacts ReadFacts.

(** A request that fails, or that comes back with an error status, ends
    the fetch at once: one request is made, nothing is parsed, and the
    error raised carries the cause after a fixed prefix. *)
Theorem request_failure_reported (w : world) (url cause : str) (st : state) :
  requests_get w url = Err (Raise RequestException cause)
  ∨ (∃ r, requests_get w url = Ok r ∧ resp_http_error r = Some cause) →
  App.fetch_content_from_url w url st =
    (Err (Raise Exception (lit "Failed to fetch content from URL: " ++ cause)),
     State (trace st ++ [EvGet url]) (heap st))
  ∧ Digest.fetch_pdf_text w url 5 st =
      (Err (Raise Exception (lit "Failed to fetch PDF from URL: " ++ cause)),
       State (trace st ++ [EvGet url]) (heap st))
  ∧ Digest.fetch_html_text w url st =
      (Err (Raise Exception (lit "Failed to fetch HTML from URL: " ++ cause)),
       State (trace st ++ [EvGet url]) (heap st)).
Proof.
  unfold App.fetch_content_from_url, App.extract_full_text, App.raise_for_status,
    Digest.fetch_pdf_text, Digest.pdf_full_text, Digest.fetch_html_text,
    Digest.html_full_text, Digest.raise_for_status.
  intros [H|(r & H & Hr)]; run; rewrite H; simpl; [done|].
  by rewrite Hr.
Qed.

Lemma request_failure_reported_witness :
  App.fetch_content_from_url Examples.offline (lit "https://example.org/") initial =
    (Err (Raise Exception (lit "Failed to fetch content from URL: connection refused")),
     State [EvGet (lit "https://example.org/")] ∅).
Proof.
  exact (proj1 (request_failure_reported Examples.offline (lit "https://example.org/")
                  (lit "connection refused") initial (or_introl eq_refl))).
Defined.

(** The loop stops at the first page that cannot be read. *)
Lemma read_pages_fail (pages : list (result str)) (e : exn) (k : nat) :
  ∀ (n i : nat) (texts parts : list str) (st : state),
    take k (drop i pages) = Ok <$> texts → length texts = k →
    pages !! (i + k)%nat = Some (Err e) → (k < n)%nat →
    read_pages pages i n parts st =
      (Err e, State (trace st ++ (EvExtractText <$> seq i (S k))) (heap st)).
Proof.
  induction k as [|k IH]; intros n i texts parts st Htake Hlen Hk Hn.
  - destruct n as [|n]; [lia|]. rewrite Nat.add_0_r in Hk.
    simpl. rewrite Hk. by run.
  - destruct n as [|n]; [lia|].
    destruct texts as [|t texts]; [done|].
    destruct (drop i pages) as [|p rest] eqn:Hd; [done|].
    simpl in Htake. injection Htake as -> Htake.
    assert (Hi : pages !! i = Some (Ok t)).
    { rewrite <- (Nat.add_0_r i), <- lookup_drop, Hd. done. }
    assert (Hrest : drop (S i) pages = rest).
    { rewrite <- Nat.add_1_r, <- drop_drop, Hd. done. }
    simpl read_pages. rewrite Hi. run.
    rewrite (IH n (S i) texts); [| by rewrite Hrest | by injection Hlen
                                 | by rewrite <- Hk; f_equal; lia | lia].
    simpl. by rewrite <- !app_assoc.
Qed.

(** When one of the first five pages of a PDF cannot be read, the pages
    before it and that page are the only ones asked for their text, and
    the fetch fails with the page's error as cause; the text already
    read is dropped. *)
Theorem unreadable_page_stops_fetch (w : world) (url : str) (r : response)
    (pages : list (result str)) (texts : list str) (e : exn) (st : state) :
  requests_get w url = Ok r →
  resp_http_error r = None →
  PdfReader w (resp_content r) = Ok pages →
  (length texts < 5)%nat →
  take (length texts) pages = Ok <$> texts →
  pages !! length texts = Some (Err e) →
  (App.is_pdf url (App.content_type_of r) = true →
   App.fetch_content_from_url w url st =
     (Err (App.fetch_handler e),
      State (trace st ++ EvGet url
             :: (EvExtractText <$> seq 0 (S (length texts)))) (heap st)))
  ∧ Digest.fetch_pdf_text w url 5 st =
      (Err (Raise Exception (lit "Failed to fetch PDF from URL: " ++ exn_msg e)),
       State (trace st ++ EvGet url
              :: (EvExtractText <$> seq 0 (S (length texts)))) (heap st)).
Proof.
  intros Hget Hstatus Hpdf Hk Htake Hfail.
  assert (Hlt : (length texts < length pages)%nat)
    by (by apply lookup_lt_Some in Hfail).
  assert (Hn : (length texts < Z.to_nat (Z.min 5 (Z.of_nat (length pages))))%nat)
    by lia.
  remember (Z.to_nat (Z.min 5 (Z.of_nat (length pages)))) as n eqn:En.
  assert (Hread : ∀ st0, read_pages pages 0 n [] st0 =
            (Err e, State (trace st0 ++ (EvExtractText <$> seq 0 (S (length texts))))
                      (heap st0))).
  { intros st0. by apply (read_pages_fail pages e (length texts) n 0 texts). }
  split.
  - intros Hpdfurl.
    unfold App.fetch_content_from_url, App.extract_full_text,
      App.raise_for_status, App.pdf_full_text, try_except, call, bind, emit,
      lift, ret, raise.
    rewrite Hget. cbn beta iota. rewrite Hstatus. cbn beta iota.
    rewrite Hpdfurl, Hpdf. cbn beta iota. rewrite <- En, Hread.
    cbn [trace heap]. by rewrite <- app_assoc.
  - unfold Digest.fetch_pdf_text, Digest.pdf_full_text, Digest.raise_for_status,
      try_except, call, bind, emit, lift, ret, raise.
    rewrite Hget. cbn beta iota. rewrite Hstatus. cbn beta iota.
    rewrite Hpdf. cbn beta iota. rewrite <- En, Hread.
    cbn [trace heap exn_msg]. by rewrite <- app_assoc.
Qed.

Lemma unreadable_page_stops_fetch_witness :
  Digest.fetch_pdf_text Examples.damaged_pdf_world (lit "https://example.org/x.pdf") 5
    initial =
  (Err (Raise Exception (lit "Failed to fetch PDF from URL: Odd-length string")),
   State (EvGet (lit "https://example.org/x.pdf")
          :: (EvExtractText <$> [0; 1; 2]%nat)) ∅).
Proof.
  refine (proj2 (unreadable_page_stops_fetch Examples.damaged_pdf_world
                   (lit "https://example.org/x.pdf") Examples.pdf_response
                   Examples.damaged_pages [lit "page 1"; lit "page 2"]
                   (Raise OtherError (lit "Odd-length string")) initial
                   eq_refl eq_refl eq_refl _ eq_refl eq_refl)).
  simpl. lia.
Defined.



End ExtractMore.

(** ** More on the summarizers *)
Module SummaryMore.
Import PyFacts ReadFacts SummaryFacts.

Lemma check_keys_ok_inv (keys : list str) (d : gmap str json) :
  check_required_keys keys (JDict d) = Ok () →
  ∀ k, k ∈ keys → is_Some (d !! k).
Proof.
  induction keys as [|k0 keys IH]; intros H k Hk.
  - by apply elem_of_nil in Hk.
  - simpl in H. destruct (d !! k0) as [v|] eqn:E.
    + rewrite bool_decide_eq_false_2 in H by done.
      apply elem_of_cons in Hk as [->|Hk]; [by rewrite E|by apply IH].
    + by rewrite bool_decide_eq_true_2 in H.
Qed.

(** What [read_summary] returns is a dictionary that has every required
    key and a list under the list key. *)
Lemma read_summary_inv (w : world) (keys : list str) (list_key : str)
    (content : option str) (summary : json) :
  read_summary w keys list_key content = Ok summary →
  ∃ d items,
    summary = JDict d
    ∧ (∀ k, k ∈ keys → is_Some (d !! k))
    ∧ d !! list_key = Some (JList items).
Proof.
  unfold read_summary. destruct content as [content|]; [|done].
  destruct (parse_json w (postprocess content)) as [j|e]; [|done].
  destruct (check_required_keys keys j) as [[]|e] eqn:Hcheck; [|done].
  destruct j as [| | | | |l|d0]; try done.
  unfold ensure_list. simpl getitem.
  destruct (d0 !! list_key) as [v|] eqn:Hv; [|done].
  pose proof (check_keys_ok_inv keys d0 Hcheck) as Hkeys.
  assert (Hins : ∀ x, ∀ k, k ∈ keys → is_Some (<[list_key := x]> d0 !! k)).
  { intros x k Hk. destruct (decide (list_key = k)) as [->|Hne].
    - rewrite lookup_insert_eq. eauto.
    - rewrite lookup_insert_ne by done. auto. }
  destruct v; simpl; intros [= <-];
    try (eexists _, _; split; [done|]; split; [by apply Hins|];
         by rewrite lookup_insert_eq).
  eexists _, _. split; [done|]. split; [done|]. exact Hv.
Qed.

(** A summary that a summarizer returns is a dictionary with every
    required key, and its list field is a list. *)
Theorem returned_summary_validated (w : world) (text api_key : str)
    (keys : list str) (list_key : str) (summary : json) (st st' : state) :
  App.summarize_paper_with_openai w text api_key st = (Ok summary, st')
    ∧ keys = App.required_keys ∧ list_key = lit "key_points"
  ∨ Digest.summarize_paper w text api_key st = (Ok summary, st')
    ∧ keys = Digest.required_keys ∧ list_key = lit "key_findings" →
  ∃ d items,
    summary = JDict d
    ∧ (∀ k, k ∈ keys → is_Some (d !! k))
    ∧ d !! list_key = Some (JList items).
Proof.
  intros [(H & -> & ->)|(H & -> & ->)].
  - rewrite app_summarize_run in H.
    destruct (chat_completions_create _ _ _ _) as [content|e]; [|done].
    destruct (read_summary _ _ _ _) as [s|e] eqn:E; [|done].
    injection H as <- _. by apply read_summary_inv in E.
  - rewrite digest_summarize_run in H.
    destruct (chat_completions_create _ _ _ _) as [content|e]; [|done].
    destruct (read_summary _ _ _ _) as [s|e] eqn:E; [|done].
    injection H as <- _. by apply read_summary_inv in E.
Qed.

Lemma returned_summary_validated_witness :
  ∃ d items,
    JDict (<[lit "key_points" := JList [JStr (lit "only one")]]> Examples.summary_dict)
    = JDict d
    ∧ (∀ k, k ∈ App.required_keys → is_Some (d !! k))
    ∧ d !! lit "key_points" = Some (JList items).
Proof.
  apply (returned_summary_validated
           (Examples.replying (Examples.fenced Examples.summary_text))
           (lit "text") (lit "sk-test") App.required_keys (lit "key_points") _
           initial
           (State [EvChat (lit "sk-test") App.system_message
                     (App.user_message (lit "text"))] ∅)).
  left. split; [by vm_compute|done].
Defined.

Lemma join_around (a b : list str) (text : str) :
  a ≠ [] → b ≠ [] →
  join nl (a ++ text :: b) = (join nl a ++ nl) ++ text ++ (nl ++ join nl b).
Proof.
  intros Ha Hb. destruct a as [|x a]; [done|]. clear Ha.
  revert x. induction a as [|y a IH]; intros x.
  - destruct b as [|z b]; [done|]. cbn [app].
    rewrite !join_cons_cons. cbn [join]. by rewrite <- !app_assoc.
  - cbn [app]. rewrite !join_cons_cons.
    change (y :: a ++ text :: b) with ((y :: a) ++ text :: b).
    rewrite IH. by rewrite <- !app_assoc.
Qed.

(** A call of a summarizer sends exactly one request, whatever comes
    back (there is no second attempt), and the user prompt of that
    request is a fixed text with the paper text inserted unchanged. *)
Theorem one_request_with_text_verbatim (w : world) (text api_key : str)
    (st : state) :
  (∃ res, App.summarize_paper_with_openai w text api_key st =
            (res, State (trace st ++ [EvChat api_key App.system_message
                                        (App.user_message text)]) (heap st)))
  ∧ (∃ res, Digest.summarize_paper w text api_key st =
              (res, State (trace st ++ [EvChat api_key Digest.system_prompt
                                          (Digest.user_prompt text)]) (heap st)))
  ∧ (∃ before after, ∀ t, App.user_message t = before ++ t ++ after)
  ∧ (∃ before after, ∀ t, Digest.user_prompt t = before ++ t ++ after).
Proof.
  split; [rewrite app_summarize_run; eauto|].
  split; [rewrite digest_summarize_run; eauto|].
  split.
  - eexists _, _. intros t. unfold App.user_message.
    match goal with
    | |- join nl ?l = _ =>
        change l with (take 9 l ++ t :: drop 10 l)
    end.
    cbn [take drop]. by apply join_around.
  - eexists _, _. intros t. unfold Digest.user_prompt.
    match goal with
    | |- join nl ?l = _ =>
        change l with (take 13 l ++ t :: drop 14 l)
    end.
    cbn [take drop]. by apply join_around.
Qed.







End SummaryMore.

(** ** More on saving a record *)
Module SinkMore.
Import PyFacts ReadFacts SummaryFacts Sink.

(** [insert_paper_record] on a dictionary whose [key_points] is not a
    list: the dictionary is sent as it is. *)
Lemma insert_run_plain (w : world) (data : loc) (d : gmap str json)
    (st : state) :
  heap st !! data = Some d →
  (∀ items, d !! lit "key_points" ≠ Some (JList items)) →
  App.insert_paper_record w data st =
    (match supabase_insert w (lit "papers") d with
     | Ok (row :: _) => Ok row
     | Ok [] =>
         Err (App.insert_handler
                (Raise Exception
                   (lit "Failed to insert paper record: No data returned from Supabase")))
     | Err e => Err (App.insert_handler e)
     end,
     State (trace st ++ [EvInsert (lit "papers") d]) (heap st)).
Proof.
  intros Hd Hk. unfold App.insert_paper_record.
  unfold try_except, call, bind, deref, store, emit, lift, ret, raise.
  rewrite Hd.
  destruct (d !! lit "key_points") as [[]|] eqn:E;
    try (by exfalso; eapply Hk);
    cbn beta iota; rewrite Hd; cbn [heap trace];
    by destruct (supabase_insert _ _ _) as [[|row rows]|e].
Qed.

(** A dictionary whose [key_points] is not a list is sent to the store
    as it is and is left as it is; the outcome follows the store: no row
    is an error, otherwise the first row is returned, and a failure of
    the store is passed on with its cause. *)
Theorem insert_outcome (w : world) (data : loc) (d : gmap str json)
    (st : state) :
  heap st !! data = Some d →
  (∀ items, d !! lit "key_points" ≠ Some (JList items)) →
  ∃ res,
    App.insert_paper_record w data st =
      (res, State (trace st ++ [EvInsert (lit "papers") d]) (heap st))
    ∧ (supabase_insert w (lit "papers") d = Ok [] →
       res = Err (Raise Exception
                    (lit "Error inserting paper record into Supabase: Failed to insert paper record: No data returned from Supabase")))
    ∧ (∀ row rows, supabase_insert w (lit "papers") d = Ok (row :: rows) →
                   res = Ok row)
    ∧ (∀ e, supabase_insert w (lit "papers") d = Err e →
            res = Err (Raise Exception
                         (lit "Error inserting paper record into Supabase: "
                          ++ exn_msg e))).
Proof.
  intros Hd Hk. eexists. split; [by apply insert_run_plain|].
  split; [by intros ->|]. split; [by intros row rows ->|by intros e ->].
Qed.

Lemma insert_outcome_witness :
  ∃ res,
    App.insert_paper_record Examples.offline 1%positive Examples.flat_state =
      (res, State (trace Examples.flat_state
                   ++ [EvInsert (lit "papers") Examples.summary_dict])
              (heap Examples.flat_state))
    ∧ res = Err (Raise Exception
                   (lit "Error inserting paper record into Supabase: Failed to insert paper record: No data returned from Supabase")).
Proof.
  destruct (insert_outcome Examples.offline 1%positive Examples.summary_dict
              Examples.flat_state) as (res & Hrun & Hempty & _).
  - by vm_compute.
  - intros items. by vm_compute.
  - exists res. split; [exact Hrun|]. by apply Hempty.
Defined.

Lemma str_items_non_string (xs : list str) (v : json) (rest : list json)
    (i : nat) :
  (∀ s, v ≠ JStr s) →
  str_items i ((JStr <$> xs) ++ v :: rest) =
    Err (Raise TypeError
           (lit "sequence item " ++ str_of_nat (i + length xs)
            ++ lit ": expected str instance, " ++ type_name v ++ lit " found")).
Proof.
  intros Hv. revert i. induction xs as [|x xs IH]; intros i.
  - rewrite Nat.add_0_r. simpl. destruct v; try done. by destruct (Hv s).
  - cbn [fmap list_fmap app str_items length]. rewrite IH.
    by replace (S i + length xs)%nat with (i + S (length xs))%nat by lia.
Qed.

(** A list of key points with an item that is not a string is not
    sent at all: joining fails on the first such item, the dictionary is
    left as it was, and the error names the item by its position counted
    from 1 (the empty string put in front takes position 0). *)
Theorem insert_rejects_non_string_item (w : world) (data : loc)
    (d : gmap str json) (xs : list str) (v : json) (rest : list json)
    (st : state) :
  heap st !! data = Some d →
  d !! lit "key_points" = Some (JList ((JStr <$> xs) ++ v :: rest)) →
  (∀ s, v ≠ JStr s) →
  App.insert_paper_record w data st =
    (Err (Raise Exception
            (lit "Error inserting paper record into Supabase: "
             ++ lit "sequence item " ++ str_of_nat (S (length xs))
             ++ lit ": expected str instance, " ++ type_name v ++ lit " found")),
     st).
Proof.
  intros Hd Hk Hv. unfold App.insert_paper_record.
  unfold try_except, call, bind, deref, store, emit, lift, ret, raise.
  rewrite Hd, Hk. cbn beta iota.
  unfold App.bullet_join, join_values.
  change (JStr [] :: (JStr <$> xs) ++ v :: rest)
    with ((JStr <$> ([] :: xs)) ++ v :: rest).
  rewrite str_items_non_string by done. reflexivity.
Qed.

Lemma insert_rejects_non_string_item_witness :
  App.insert_paper_record Examples.offline 1%positive Examples.mixed_state =
    (Err (Raise Exception
            (lit "Error inserting paper record into Supabase: sequence item 2: expected str instance, int found")),
     Examples.mixed_state).
Proof.
  apply (insert_rejects_non_string_item Examples.offline 1%positive
           Examples.mixed_dict [lit "first"] (JInt 2) [] Examples.mixed_state);
    by vm_compute.
Defined.

End SinkMore.

(** ** Whole runs of the two programs *)
Module RunMore.
Import PyFacts NormFacts ReadFacts SummaryFacts Sink SinkMore.

Lemma record_key_points (t u a k m : json) :
  (<[lit "title" := t]>
     (<[lit "url" := u]>
        (<[lit "abstract_summary" := a]>
           (<[lit "key_points" := k]>
              (<[lit "methodology" := m]> (∅ : gmap str json))))))
    !! lit "key_points" = Some k.
Proof.
  rewrite !lookup_insert_ne by (by vm_compute). apply lookup_insert_eq.
Qed.

Lemma nonempty_key (api_key : str) (env_key : option str) :
  api_key ≠ [] → str_or (Some api_key) env_key = Some api_key.
Proof. by destruct api_key. Qed.

(** A run of "Summarize & Save" in which every step succeeds stores one
    record with exactly the fields [title], [url], [abstract_summary],
    [key_points] and [methodology]: the address is the one entered, the
    key points are the flattened text, and whatever else the reply held
    is not stored.  The record is a new dictionary; the summary is not
    modified.  The run then shows the success message and stops the
    script with [st.rerun()]. *)
Theorem saved_record_fields (w : world) (url api_key text : str)
    (d : gmap str json) (title abstract methodology : json) (xs : list str)
    (row : gmap str json) (rows : list (gmap str json))
    (st st1 st2 : state) :
  api_key ≠ [] → url ≠ [] →
  App.fetch_content_from_url w url st = (Ok text, st1) →
  App.summarize_paper_with_openai w text api_key st1 = (Ok (JDict d), st2) →
  d !! lit "title" = Some title →
  d !! lit "abstract_summary" = Some abstract →
  d !! lit "methodology" = Some methodology →
  d !! lit "key_points" = Some (JList (JStr <$> xs)) →
  let record : gmap str json :=
    <[lit "title" := title]>
      (<[lit "url" := JStr url]>
         (<[lit "abstract_summary" := abstract]>
            (<[lit "key_points" := JStr (bulleted xs)]>
               (<[lit "methodology" := methodology]> ∅)))) in
  supabase_insert w (lit "papers") record = Ok (row :: rows) →
  App.summarize_and_save w (Some api_key) None url st =
    (Ok Reruns,
     State (trace st2
            ++ [EvInsert (lit "papers") record;
                EvStSuccess (check_mark ++ lit " Paper summarized and saved successfully!")])
       (<[fresh (dom (heap st2)) := record]> (heap st2))).
Proof.
  intros Hkey Hurl Hfetch Hsum Ht Ha Hm Hk record Hins.
  unfold App.summarize_and_save. rewrite nonempty_key by done.
  destruct api_key as [|c api_key]; [done|].
  destruct url as [|u url]; [done|].
  assert (Hrec : App.paper_record (JDict d) (u :: url) = Ok record).
  { unfold App.paper_record, App.key_points_text. simpl getitem.
    by rewrite Ht, Ha, Hk, Hm, bullet_join_strings. }
  unfold try_except, bind at 1. rewrite Hfetch.
  unfold bind at 1. rewrite Hsum.
  unfold bind at 1, lift at 1. rewrite Hrec.
  unfold bind at 1, alloc. unfold bind at 1.
  rewrite (insert_run_plain w _ record).
  - cbn [heap trace]. rewrite Hins. unfold bind, emit, st_rerun, ret.
    cbn [heap trace]. by rewrite <- app_assoc.
  - cbn [heap]. apply lookup_insert_eq.
  - intros items. unfold record. by rewrite record_key_points.
Qed.

Lemma saved_record_fields_witness :
  App.summarize_and_save Examples.article_world (Some (lit "sk-test")) None
    (lit "https://example.org/a") initial =
  (Ok Reruns,
   State ([EvGet (lit "https://example.org/a");
           EvChat (lit "sk-test") App.system_message
             (App.user_message (Examples.letters 60 ++ lit " " ++ Examples.letters 60))]
          ++ [EvInsert (lit "papers") Examples.saved_record;
              EvStSuccess (check_mark ++ lit " Paper summarized and saved successfully!")])
     (<[fresh (dom (∅ : gmap positive (gmap str json))) := Examples.saved_record]> ∅)).
Proof.
  apply (saved_record_fields Examples.article_world (lit "https://example.org/a")
           (lit "sk-test") (Examples.letters 60 ++ lit " " ++ Examples.letters 60)
           (<[lit "key_points" := JList [JStr (lit "only one")]]> Examples.summary_dict)
           (JStr (lit "X")) (JStr (lit "S")) (JStr (lit "M")) [lit "only one"]
           Examples.saved_record [] initial
           (State [EvGet (lit "https://example.org/a")] ∅)
           (State [EvGet (lit "https://example.org/a");
                   EvChat (lit "sk-test") App.system_message
                     (App.user_message
                        (Examples.letters 60 ++ lit " " ++ Examples.letters 60))] ∅));
    by vm_compute.
Defined.

(** When the summary holds a key point that is not a string, the run
    of "Summarize & Save" stops at the flattening: nothing is sent to the
    store, and the message shown is that of the join. *)
Theorem non_string_key_point_not_saved (w : world) (url api_key text : str)
    (d : gmap str json) (title abstract : json) (items : list json) (e : exn)
    (st st1 st2 : state) :
  api_key ≠ [] → url ≠ [] →
  App.fetch_content_from_url w url st = (Ok text, st1) →
  App.summarize_paper_with_openai w text api_key st1 = (Ok (JDict d), st2) →
  d !! lit "title" = Some title →
  d !! lit "abstract_summary" = Some abstract →
  d !! lit "key_points" = Some (JList items) →
  App.bullet_join items = Err e →
  App.summarize_and_save w (Some api_key) None url st =
    (Ok Continues,
     State (trace st2
            ++ [EvStError (cross_mark ++ lit " An error occurred: " ++ exn_msg e)])
       (heap st2)).
Proof.
  intros Hkey Hurl Hfetch Hsum Ht Ha Hk Hjoin.
  unfold App.summarize_and_save. rewrite nonempty_key by done.
  destruct api_key as [|c api_key]; [done|].
  destruct url as [|u url]; [done|].
  assert (Hrec : App.paper_record (JDict d) (u :: url) = Err e).
  { unfold App.paper_record, App.key_points_text. simpl getitem.
    by rewrite Ht, Ha, Hk, Hjoin. }
  unfold try_except, bind at 1. rewrite Hfetch.
  unfold bind at 1. rewrite Hsum.
  unfold bind at 1, lift at 1. by rewrite Hrec.
Qed.

Lemma non_string_key_point_not_saved_witness :
  App.summarize_and_save Examples.mixed_world (Some (lit "sk-test")) None
    (lit "https://example.org/a") initial =
  (Ok Continues,
   State ([EvGet (lit "https://example.org/a");
           EvChat (lit "sk-test") App.system_message
             (App.user_message (Examples.letters 60 ++ lit " " ++ Examples.letters 60))]
          ++ [EvStError (cross_mark ++ lit " An error occurred: "
                         ++ lit "sequence item 2: expected str instance, int found")])
     ∅).
Proof.
  apply (non_string_key_point_not_saved Examples.mixed_world
           (lit "https://example.org/a") (lit "sk-test")
           (Examples.letters 60 ++ lit " " ++ Examples.letters 60)
           Examples.mixed_dict (JStr (lit "X")) (JStr (lit "S"))
           [JStr (lit "first"); JInt 2]
           (Raise TypeError (lit "sequence item 2: expected str instance, int found"))
           initial
           (State [EvGet (lit "https://example.org/a")] ∅)
           (State [EvGet (lit "https://example.org/a");
                   EvChat (lit "sk-test") App.system_message
                     (App.user_message
                        (Examples.letters 60 ++ lit " " ++ Examples.letters 60))] ∅));
    by vm_compute.
Defined.

(** No [Exception] escapes from "Summarize & Save": a run either shows
    an error message and lets the script go on, or it shows the success
    message and then stops the script with [st.rerun()]; the rerun
    happens only after the success message.  "Fetch Content" never
    raises, and ends by showing one error or success message. *)
Theorem runs_report_their_outcome (w : world) (st : state) :
  (∀ session_key env_key url,
     ∃ st' how msg,
       App.summarize_and_save w session_key env_key url st = (Ok how, st')
       ∧ (how = Continues ∧ last (trace st') = Some (EvStError msg)
          ∨ how = Reruns ∧ last (trace st') = Some (EvStSuccess msg)))
  ∧ (∀ url session, url ≠ [] →
       ∃ session' st' ev, Digest.fetch_content w url session st = (Ok session', st')
                          ∧ last (trace st') = Some ev ∧ is_message ev).
Proof.
  assert (Herr : ∀ msg (s : state),
            ∃ st' how msg',
              (_ <~ emit (EvStError msg) ;; ret Continues) s = (Ok how, st')
              ∧ (how = Continues ∧ last (trace st') = Some (EvStError msg')
                 ∨ how = Reruns ∧ last (trace st') = Some (EvStSuccess msg'))).
  { intros msg s. unfold bind, emit, ret. eexists _, _, _. split; [done|].
    left. split; [done|]. cbn [trace]. by rewrite last_snoc. }
  split.
  - intros sk ek url. unfold App.summarize_and_save.
    destruct (str_or sk ek) as [[|k ks]|]; [apply Herr| |apply Herr].
    destruct url as [|u us]; [apply Herr|].
    unfold try_except. unfold bind at 1.
    destruct (App.fetch_content_from_url _ _ _) as [[text|e] s1]; [|apply Herr].
    unfold bind at 1.
    destruct (App.summarize_paper_with_openai _ _ _ _) as [[summary|e] s2];
      [|apply Herr].
    unfold bind at 1.
    destruct (lift _ s2) as [[record|e] s3]; [|apply Herr].
    unfold bind at 1.
    destruct (alloc record s3) as [[data|e] s4]; [|apply Herr].
    unfold bind at 1.
    destruct (App.insert_paper_record _ _ _) as [[row|e] s5]; [|apply Herr].
    unfold bind, emit, st_rerun, ret. eexists _, _, _. split; [done|].
    right. split; [done|]. cbn [trace]. by rewrite last_snoc.
  - intros url session Hurl. unfold Digest.fetch_content.
    destruct url as [|u us]; [done|].
    assert (Herr' : ∀ msg (s : state),
              ∃ session' st' ev,
                (_ <~ emit (EvStError msg) ;; ret session) s = (Ok session', st')
                ∧ last (trace st') = Some ev ∧ is_message ev).
    { intros msg s. unfold emit, bind, ret. eexists _, _, _. split; [done|].
      cbn [trace]. rewrite last_snoc. split; [done|]. exists msg. by left. }
    unfold try_except. unfold bind at 1.
    destruct (Digest.is_pdf_url (u :: us)).
    + unfold bind at 1.
      destruct (Digest.fetch_pdf_text _ _ _ _) as [[text|e] s1]; [|apply Herr'].
      unfold bind, emit, ret. eexists _, _, _. split; [done|].
      cbn [trace]. rewrite last_snoc. split; [done|]. eexists. by right.
    + unfold bind at 1.
      destruct (Digest.fetch_html_text _ _ _) as [[text|e] s1]; [|apply Herr'].
      unfold bind, emit, ret. eexists _, _, _. split; [done|].
      cbn [trace]. rewrite last_snoc. split; [done|]. eexists. by right.
Qed.

(** Once a text has passed the gate of "Generate Digest", the first
    thing the run does is the request to the summarizer, on that text. *)
Lemma generate_digest_summarizes (w : world) (mode : Digest.input_mode)
    (url raw_text text api_key : str) (session : Digest.session_state)
    (env_key : option str) (st : state) :
  let session' :=
    match mode with
    | Digest.URL => session
    | Digest.RawText => Digest.store_raw_text raw_text session
    end in
  Digest.text_to_summarize mode raw_text session' = inl text →
  str_or (Digest.openai_api_key session') env_key = Some api_key → api_key ≠ [] →
  ∃ st' t,
    Digest.generate_digest w mode url raw_text session env_key st = (Ok (), st')
    ∧ trace st' = trace st
                  ++ EvChat api_key Digest.system_prompt (Digest.user_prompt text) :: t.
Proof.
  intros session' Htext Hkey Hkne. unfold Digest.generate_digest.
  fold session'. rewrite Hkey. destruct api_key as [|c k]; [done|].
  rewrite Htext.
  unfold try_except, bind at 1.
  rewrite digest_summarize_run.
  destruct (match chat_completions_create _ _ _ _ with Ok _ => _ | Err _ => _ end)
    as [summary|e].
  - unfold bind at 1, Digest.save_to_word, try_except, call, bind, emit, lift, raise.
    cbn [trace heap].
    destruct (docx_save _ _ _ _); cbn [trace heap];
      eexists _, _; (split; [done|]); cbn [trace];
      rewrite <- !app_assoc; done.
  - unfold emit. eexists _, _. split; [done|]. cbn [trace].
    by rewrite <- app_assoc.
Qed.

(** In URL mode "Generate Digest" sends whatever text the session
    holds to the summarizer, as long as it is not empty: its length is
    not looked at.  A text pasted earlier in Raw Text mode is such a
    text, however short. *)
Theorem url_mode_has_no_length_gate (w : world) (url raw_text text api_key : str)
    (session : Digest.session_state) (env_key : option str) (st : state) :
  Digest.paper_text session = Some text → text ≠ [] →
  str_or (Digest.openai_api_key session) env_key = Some api_key → api_key ≠ [] →
  ∃ st' t,
    Digest.generate_digest w Digest.URL url raw_text session env_key st = (Ok (), st')
    ∧ trace st' = trace st
                  ++ EvChat api_key Digest.system_prompt (Digest.user_prompt text) :: t.
Proof.
  intros Htext Hne Hkey Hkne.
  apply (generate_digest_summarizes w Digest.URL); [|done..].
  unfold Digest.text_to_summarize. rewrite Htext. by destruct text.
Qed.

(** In Raw Text mode a pasted text whose stripped length is at least 100
    goes to the summarizer exactly as pasted: it is not normalized and
    not cut, whatever its length. *)
Theorem raw_mode_sends_text_as_pasted (w : world) (url raw_text api_key : str)
    (session : Digest.session_state) (env_key : option str) (st : state) :
  100 <= len (strip raw_text) →
  str_or (Digest.openai_api_key session) env_key = Some api_key → api_key ≠ [] →
  ∃ st' t,
    Digest.generate_digest w Digest.RawText url raw_text session env_key st
    = (Ok (), st')
    ∧ trace st' = trace st
                  ++ EvChat api_key Digest.system_prompt
                       (Digest.user_prompt raw_text) :: t.
Proof.
  intros Hlen Hkey Hkne.
  apply (generate_digest_summarizes w Digest.RawText); [|by destruct raw_text|done].
  unfold Digest.text_to_summarize.
  destruct (Z.ltb_spec (len (strip raw_text)) 100); [lia|].
  rewrite orb_false_r. destruct raw_text; [by vm_compute in Hlen|done].
Qed.

Lemma raw_mode_sends_text_as_pasted_witness :
  len (Examples.words 4000) = 12000
  ∧ ∃ st' t,
      Digest.generate_digest Examples.offline Digest.RawText [] (Examples.words 4000)
        Examples.keyed_session None initial = (Ok (), st')
      ∧ trace st' = trace initial
                    ++ EvChat (lit "sk-test") Digest.system_prompt
                         (Digest.user_prompt (Examples.words 4000)) :: t.
Proof.
  split; [by vm_compute|].
  apply (raw_mode_sends_text_as_pasted Examples.offline [] (Examples.words 4000)
           (lit "sk-test") Examples.keyed_session None initial); by vm_compute.
Defined.

Lemma url_mode_has_no_length_gate_witness :
  ∃ st' t,
    Digest.generate_digest Examples.offline Digest.URL [] [] Examples.pasted_session
      None initial = (Ok (), st')
    ∧ trace st' = trace initial
                  ++ EvChat (lit "sk-test") Digest.system_prompt
                       (Digest.user_prompt (lit "hi")) :: t.
Proof.
  apply (url_mode_has_no_length_gate Examples.offline [] [] (lit "hi")
           (lit "sk-test") Examples.pasted_session None initial);
    by vm_compute.
Defined.

(** "Fetch Content" either leaves the session as it was or stores a
    text together with its origin: the stored text has 100 to 10015
    characters and is single-spaced, the source type is [url] and the
    source value is the address.  The API key is never touched. *)
Theorem fetch_content_session (w : world) (url : str)
    (session session' : Digest.session_state) (st st' : state) :
  Digest.fetch_content w url session st = (Ok session', st') →
  session' = session
  ∨ ∃ text,
      session' = Digest.Session (Digest.openai_api_key session) (Some text)
                   (Some (lit "url")) (Some url)
      ∧ 100 <= len text <= 10015
      ∧ space_separated text = true.
Proof.
  unfold Digest.fetch_content. destruct url as [|u us]; [by intros [= <- _]; left|].
  unfold try_except. unfold bind at 1.
  destruct (Digest.is_pdf_url (u :: us)).
  - unfold bind at 1.
    destruct (Digest.fetch_pdf_text _ _ _ _) as [[text|e] s1] eqn:E.
    + unfold bind, emit, ret. intros [= <- _]. right. exists text.
      split; [done|].
      unfold Digest.fetch_pdf_text, try_except, bind, lift, raise in E.
      destruct (Digest.pdf_full_text _ _ _ _) as [[full|e] s0]; [|done].
      destruct (Digest.clean_text full 10000) as [t|e] eqn:Ec; [|done].
      injection E as <- _. by apply FetchMore.clean_text_output_bounds with full.
    + unfold bind, emit, ret. intros [= <- _]. by left.
  - unfold bind at 1.
    destruct (Digest.fetch_html_text _ _ _) as [[text|e] s1] eqn:E.
    + unfold bind, emit, ret. intros [= <- _]. right. exists text.
      split; [done|].
      unfold Digest.fetch_html_text, try_except, bind, lift, raise in E.
      destruct (Digest.html_full_text _ _ _) as [[full|e] s0]; [|done].
      destruct (Digest.clean_text full 10000) as [t|e] eqn:Ec; [|done].
      injection E as <- _. by apply FetchMore.clean_text_output_bounds with full.
    + unfold bind, emit, ret. intros [= <- _]. by left.
Qed.

Lemma fetch_content_session_witness :
  let text := Examples.letters 60 ++ lit " " ++ Examples.letters 60 in
  Digest.fetch_content Examples.article_world (lit "https://example.org/a")
    Examples.keyed_session initial =
  (Ok (Digest.Session (Some (lit "sk-test")) (Some text) (Some (lit "url"))
         (Some (lit "https://example.org/a"))),
   State [EvGet (lit "https://example.org/a");
          EvStSuccess (check_mark ++ lit " Fetched HTML content (121 characters)")] ∅)
  ∧ (Digest.Session (Some (lit "sk-test")) (Some text) (Some (lit "url"))
       (Some (lit "https://example.org/a")) = Examples.keyed_session
     ∨ ∃ text',
         Digest.Session (Some (lit "sk-test")) (Some text) (Some (lit "url"))
           (Some (lit "https://example.org/a"))
         = Digest.Session (Digest.openai_api_key Examples.keyed_session)
             (Some text') (Some (lit "url")) (Some (lit "https://example.org/a"))
         ∧ 100 <= len text' <= 10015
         ∧ space_separated text' = true).
Proof.
  assert (H : Digest.fetch_content Examples.article_world (lit "https://example.org/a")
                Examples.keyed_session initial =
              (Ok (Digest.Session (Some (lit "sk-test"))
                     (Some (Examples.letters 60 ++ lit " " ++ Examples.letters 60))
                     (Some (lit "url")) (Some (lit "https://example.org/a"))),
               State [EvGet (lit "https://example.org/a");
                      EvStSuccess (check_mark ++ lit " Fetched HTML content (121 characters)")] ∅))
    by (by vm_compute).
  split; [exact H|]. exact (fetch_content_session _ _ _ _ _ _ H).
Defined.

(** A PDF with an unreadable third page: three pages are asked for
    their text. *)
Lemma pdf_never_past_five_witness :
  ∃ m, (m <= 5)%nat
       ∧ [EvExtractText 0%nat; EvExtractText 1%nat; EvExtractText 2%nat]
         = trace initial ++ (EvExtractText <$> seq 0 m).
Proof.
  apply (Extractor.pdf_never_past_five Examples.damaged_pdf_world
           Examples.pdf_response initial
           (State [EvExtractText 0%nat; EvExtractText 1%nat; EvExtractText 2%nat] ∅)
           (Err (Raise OtherError (lit "Odd-length string")))).
  by vm_compute.
Defined.

(** A text that was cut is returned as it is when normalized again. *)
Lemma clean_text_idempotent_witness :
  let out := take (Z.to_nat 10000) (collapse (Examples.words 3334))
             ++ lit "... [truncated]" in
  Digest.clean_text out 10000 = Ok out.
Proof.
  apply (Normalizer.clean_text_idempotent (Examples.words 3334)). by vm_compute.
Defined.

End RunMore.

(** ** File names and shortened texts *)
Module NamesMore.
Import PyFacts.

Lemma lstrip_suffix (s : str) : ∃ pre, s = pre ++ lstrip s.
Proof.
  induction s as [|c s [pre IH]]; [by exists []|]. simpl.
  destruct (isspace c); [|by exists []].
  exists (c :: pre). simpl. by rewrite <- IH.
Qed.

Lemma elem_of_lstrip (c : char) (s : str) : c ∈ lstrip s → c ∈ s.
Proof.
  destruct (lstrip_suffix s) as [pre H]. intros Hc. rewrite H.
  apply elem_of_app. by right.
Qed.

Lemma elem_of_strip (c : char) (s : str) : c ∈ strip s → c ∈ s.
Proof.
  unfold strip, rstrip. intros H.
  rewrite elem_of_reverse in H. apply elem_of_lstrip in H.
  rewrite elem_of_reverse in H. by apply elem_of_lstrip.
Qed.

(** The cleaned title that goes into a file name holds only characters
    that are letters or digits, [-] or [_]: no space, and none of the
    punctuation that a title may contain.  It is at most 50 characters
    long and never longer than the title. *)
Theorem safe_title_characters (isalnum : char → bool) (title : str) :
  Forall (λ c, (isalnum c = true ∨ c = 45%N ∨ c = 95%N) ∧ c ≠ 32%N)
    (DigestRest.safe_title isalnum title)
  ∧ len (DigestRest.safe_title isalnum title) <= 50
  ∧ len (DigestRest.safe_title isalnum title) <= len title.
Proof.
  unfold DigestRest.safe_title, DigestRest.spaces_to_underscores.
  split.
  - apply Forall_fmap, Forall_forall. intros c Hc. unfold compose.
    apply elem_of_strip, list_elem_of_filter in Hc as [Hkept _].
    unfold DigestRest.kept_in_title in Hkept.
    destruct (N.eqb_spec c 32) as [Heq|Hsp]; [split; [by right; right|done]|].
    split; [|done].
    apply orb_true_iff in Hkept as [Hkept|H95];
      [|right; right; by apply N.eqb_eq].
    apply orb_true_iff in Hkept as [Hkept|H45];
      [|right; left; by apply N.eqb_eq].
    apply orb_true_iff in Hkept as [?|?]; [by left|done].
  - set (kept := filter _ _).
    assert (Hlen : (length kept <= length (slice_to title 50))%nat)
      by apply length_filter.
    assert (Hslice : (length (slice_to title 50) <= 50
                      ∧ length (slice_to title 50) <= length title)%nat).
    { rewrite slice_to_nonneg by lia. rewrite length_take. lia. }
    pose proof (len_strip_le kept) as Hstrip.
    unfold len in *. rewrite length_fmap. lia.
Qed.

(** Two titles and the names they give. *)
Example safe_title_examples :
  DigestRest.safe_title Examples.ascii_isalnum (lit " Deep Learning: A (Brief) Survey/Review ")
  = lit "Deep_Learning_A_Brief_SurveyReview"
  ∧ DigestRest.default_filename Examples.ascii_isalnum (lit "???") (lit "20240101_120000")
    = lit "paper_digest__20240101_120000.docx".
Proof. split; by vm_compute. Qed.

(** The text shown in the table is the text itself when it fits, and
    otherwise its first [length] characters followed by three dots: it
    is never longer than [length + 3]. *)
Theorem truncate_bound (text : str) (length : Z) :
  0 <= length →
  len (AppRest.truncate text length) <= length + 3
  ∧ (len text <= length → AppRest.truncate text length = text)
  ∧ (length < len text →
     AppRest.truncate text length = take (Z.to_nat length) text ++ lit "...").
Proof.
  intros Hlen. unfold AppRest.truncate.
  destruct text as [|c text]; [by repeat split; unfold len; simpl; lia|].
  destruct (Z.leb_spec (len (c :: text)) length) as [Hle|Hgt].
  - split; [lia|]. split; [done|lia].
  - rewrite slice_to_nonneg by done. split; [|split; [lia|done]].
    rewrite len_app. unfold len in *. rewrite length_take.
    change (Z.of_nat (Datatypes.length (lit "..."))) with 3. lia.
Qed.

Lemma truncate_bound_witness :
  len (AppRest.truncate (Examples.letters 200) 150) <= 150 + 3
  ∧ (len (Examples.letters 200) <= 150 →
     AppRest.truncate (Examples.letters 200) 150 = Examples.letters 200)
  ∧ (150 < len (Examples.letters 200) →
     AppRest.truncate (Examples.letters 200) 150
     = take (Z.to_nat 150) (Examples.letters 200) ++ lit "...").
Proof. apply truncate_bound. lia. Defined.

End NamesMore.
